(** * Datalogger coordinator (dataloggerTFG.ino): session lifecycle,
      filename sanitizer, command dispatch and sampling scheduler.

    The sketch is embedded as pure functions over an explicit record of its
    global variables.  Calls into the collaborators (Serial, SD, the open
    file, the HTTP client) are recorded in an event trace; what the
    collaborators answer (does SD.open succeed, what does millis() return,
    what do the sensors read) is an explicit input of each function. *)

From Stdlib Require Import ZArith List String Ascii Bool Lia DecimalString.
Import ListNotations.
Open Scope string_scope.

(** ** Arduino [String] operations used by the sketch

    An Arduino [String] is a byte string; it is modelled by [string].
    The members below follow the Arduino core (trim, toUpperCase,
    equalsIgnoreCase, startsWith, indexOf, substring) on the C locale. *)
Module WString.

Definition code (c : ascii) : nat := nat_of_ascii c.

Definition between (lo hi c : ascii) : bool :=
  (code lo <=? code c)%nat && (code c <=? code hi)%nat.

(** C [isspace]: space, and the control characters 9 to 13. *)
Definition isspace (c : ascii) : bool :=
  (code c =? 32)%nat || between "009" "013" c.

Definition toupper (c : ascii) : ascii :=
  if between "a" "z" c then ascii_of_nat (code c - 32) else c.

Definition tolower (c : ascii) : ascii :=
  if between "A" "Z" c then ascii_of_nat (code c + 32) else c.

Fixpoint map_chars (f : ascii -> ascii) (s : string) : string :=
  match s with
  | EmptyString => EmptyString
  | String c r => String (f c) (map_chars f r)
  end.

Fixpoint all_chars (p : ascii -> bool) (s : string) : bool :=
  match s with
  | EmptyString => true
  | String c r => p c && all_chars p r
  end.

Fixpoint has_char (c : ascii) (s : string) : bool :=
  match s with
  | EmptyString => false
  | String d r => Ascii.eqb c d || has_char c r
  end.

Fixpoint ltrim (s : string) : string :=
  match s with
  | EmptyString => EmptyString
  | String c r => if isspace c then ltrim r else s
  end.

Fixpoint rtrim (s : string) : string :=
  match s with
  | EmptyString => EmptyString
  | String c r =>
      match rtrim r with
      | EmptyString => if isspace c then EmptyString else String c EmptyString
      | r' => String c r'
      end
  end.

(** [String::trim]: leading, then trailing white space is removed. *)
Definition trim (s : string) : string := rtrim (ltrim s).

Definition toUpperCase (s : string) : string := map_chars toupper s.

(** [String::equalsIgnoreCase]: same length and equal after [tolower]. *)
Fixpoint equalsIgnoreCase (a b : string) : bool :=
  match a, b with
  | EmptyString, EmptyString => true
  | String x a', String y b' =>
      Ascii.eqb (tolower x) (tolower y) && equalsIgnoreCase a' b'
  | _, _ => false
  end.

Definition startsWith (s p : string) : bool := prefix p s.

(** [String::indexOf(char, from)] and [String::indexOf(String, from)]:
    position of the first occurrence at or after [from], or -1. *)
Fixpoint index_char_from (pos : nat) (c : ascii) (s : string) (from : nat)
  : Z :=
  match s with
  | EmptyString => (-1)%Z
  | String d r =>
      if (from <=? pos)%nat && Ascii.eqb c d then Z.of_nat pos
      else index_char_from (S pos) c r from
  end.

Definition indexOfChar (s : string) (c : ascii) (from : Z) : Z :=
  if (from <? 0)%Z then (-1)%Z (* read as a huge unsigned index *)
  else index_char_from 0 c s (Z.to_nat from).

Definition indexOfStr (s p : string) : Z :=
  match index 0 p s with
  | Some n => Z.of_nat n
  | None => (-1)%Z
  end.

(** [String::substring(left, right)]: the indices are swapped when out of
    order, an out-of-range [left] gives the empty string, and [right] is
    clipped to the length.  The sketch only passes indices that are not
    negative. *)
Definition substring2 (s : string) (left right : Z) : string :=
  let (l, r) := if (right <? left)%Z then (right, left) else (left, right) in
  let l := Z.to_nat l in
  let len := length s in
  if (len <=? l)%nat then EmptyString
  else
    let r := Nat.min (Z.to_nat r) len in
    substring l (r - l) s.

Definition substring1 (s : string) (left : Z) : string :=
  substring2 s left (Z.of_nat (length s)).

End WString.

(** ** Filename helpers (nombreValidoBasico, to83BaseName,
       buildCsvFilenameFromBase) *)
Module Filename.
Import WString.

(** The characters of [invalidos]: slash, backslash, colon, star, question
    mark, double quote (code 34), less, greater, bar. *)
Definition invalidos : string := "/\:*?" ++ String "034" "<>|".

(** Inner loop over [invalidos] for one character of the name. *)
Fixpoint es_invalido (c : ascii) (inv : string) : bool :=
  match inv with
  | EmptyString => false
  | String d r => if Ascii.eqb c d then true else es_invalido c r
  end.

(** Outer loop over the name: [true] when some character is invalid. *)
Fixpoint tiene_invalido (nombre : string) : bool :=
  match nombre with
  | EmptyString => false
  | String c r => if es_invalido c invalidos then true else tiene_invalido r
  end.

Definition nombreValidoBasico (nombre : string) : bool :=
  if (length nombre =? 0)%nat then false
  else
    match nombre with
    | String "." _ => false
    | _ => negb (tiene_invalido nombre)
    end.

Definition es_letra_o_digito (c : ascii) : bool :=
  between "A" "Z" c || between "0" "9" c.

Definition es_separador (c : ascii) : bool :=
  Ascii.eqb c "-" || Ascii.eqb c " " || Ascii.eqb c ".".

(** The [for] loop of to83BaseName: it runs while characters remain and
    [out] is shorter than 8. *)
Fixpoint to83_loop (input out : string) : string :=
  match input with
  | EmptyString => out
  | String c rest =>
      if (length out <? 8)%nat then
        if es_letra_o_digito c then to83_loop rest (out ++ String c EmptyString)
        else if es_separador c then to83_loop rest (out ++ "_")
        else to83_loop rest out
      else out
  end.

Definition to83BaseName (input : string) : string :=
  let input := toUpperCase (trim input) in
  let out := to83_loop input EmptyString in
  if (length out =? 0)%nat then "LOG" else out.

Definition buildCsvFilenameFromBase (base : string) : string :=
  to83BaseName base ++ ".CSV".

(** The sanitizer as iniciarSesionMedida runs it: the basic validity check,
    then the 8.3 name.  [None] is the InvalidName failure. *)
Definition sanitize (rawLabel : string) : option string :=
  if nombreValidoBasico rawLabel then Some (buildCsvFilenameFromBase rawLabel)
  else None.

(** A character of the class [A-Z0-9_]. *)
Definition stem_char (c : ascii) : bool :=
  between "A" "Z" c || between "0" "9" c || Ascii.eqb c "_".

(** The stem part of the pattern: one to eight characters of [A-Z0-9_]. *)
Definition stem_ok (stem : string) : bool :=
  (1 <=? length stem)%nat && (length stem <=? 8)%nat && all_chars stem_char stem.

(** A file name matches the pattern of an 8.3 CSV name: a stem of one to
    eight characters of [A-Z0-9_] followed by the extension [.CSV]. *)
Definition matches_83 (f : string) : Prop :=
  exists stem, f = stem ++ ".CSV" /\ stem_ok stem = true.

(** The raw label contains a character of the rejected set. *)
Definition has_rejected (raw : string) : bool :=
  negb (all_chars (fun c => negb (has_char c invalidos)) raw).

Definition starts_with_dot (raw : string) : bool :=
  match raw with
  | String c _ => Ascii.eqb c "."
  | EmptyString => false
  end.

(** The labels the basic check turns down: empty, leading dot, or a
    rejected character. *)
Definition rejected_label (raw : string) : bool :=
  (length raw =? 0)%nat || starts_with_dot raw || has_rejected raw.

End Filename.

(** ** The sketch: globals, collaborators, session start and stop *)
Module Datalogger.
Import WString Filename.
Open Scope Z_scope.

(** [unsigned long] is 32 bits wide on the board (Renesas RA4M1). *)
Definition wrap32 (z : Z) : Z := z mod 2 ^ 32.

Definition PERIODO_LOG_MS : Z := 1000.
Definition PERIODO_WEB_MS : Z := 1000.
Definition MAX_LEN : Z := 6000.

(** A [File] object: [None] tests false (never opened, open failed, or
    closed); [Some n] is an open handle on the path [n]. *)
Definition File := option string.

Definition is_open (f : File) : bool :=
  match f with
  | Some _ => true
  | None => false
  end.

(** What the HTTP client is sent. *)
Inductive Response :=
| MainPage
| LogData (body : string)
| LastData (body : string)
| Download (filename : string) (found : bool)
| CmdOK
| Redirect.

(** Calls into the collaborators, newest first in the trace.  A storage
    call carries the answer the collaborator gave. *)
Inductive Event :=
| SerialPrintln (msg : string)
| SerialDirectory
| SerialDump (name : string)
| SdOpenWrite (name : string) (ok : bool)
| SdOpenRead (name : string) (ok : bool)
| SdRemove (name : string) (ok : bool)
| FilePrintln (line : string) (ok : bool)
| FileFlush
| FileClose
| Http (r : Response).

(** The global variables of the sketch, and the trace of its effects. *)
Record State := mkState {
  estado : Z;
  nombreArchivo : string;
  logFile : File;
  lastLoop : Z;
  tiempo_s : Z;
  consola : string;
  ultimaLineaCSV : string;
  lastWebPushMs : Z;
  trace : list Event
}.

Definition set_estado (v : Z) (s : State) : State :=
  mkState v (nombreArchivo s) (logFile s) (lastLoop s) (tiempo_s s)
          (consola s) (ultimaLineaCSV s) (lastWebPushMs s) (trace s).

Definition set_nombreArchivo (v : string) (s : State) : State :=
  mkState (estado s) v (logFile s) (lastLoop s) (tiempo_s s)
          (consola s) (ultimaLineaCSV s) (lastWebPushMs s) (trace s).

Definition set_logFile (v : File) (s : State) : State :=
  mkState (estado s) (nombreArchivo s) v (lastLoop s) (tiempo_s s)
          (consola s) (ultimaLineaCSV s) (lastWebPushMs s) (trace s).

Definition set_lastLoop (v : Z) (s : State) : State :=
  mkState (estado s) (nombreArchivo s) (logFile s) v (tiempo_s s)
          (consola s) (ultimaLineaCSV s) (lastWebPushMs s) (trace s).

Definition set_tiempo_s (v : Z) (s : State) : State :=
  mkState (estado s) (nombreArchivo s) (logFile s) (lastLoop s) v
          (consola s) (ultimaLineaCSV s) (lastWebPushMs s) (trace s).

Definition set_consola (v : string) (s : State) : State :=
  mkState (estado s) (nombreArchivo s) (logFile s) (lastLoop s) (tiempo_s s)
          v (ultimaLineaCSV s) (lastWebPushMs s) (trace s).

Definition set_ultimaLineaCSV (v : string) (s : State) : State :=
  mkState (estado s) (nombreArchivo s) (logFile s) (lastLoop s) (tiempo_s s)
          (consola s) v (lastWebPushMs s) (trace s).

Definition set_lastWebPushMs (v : Z) (s : State) : State :=
  mkState (estado s) (nombreArchivo s) (logFile s) (lastLoop s) (tiempo_s s)
          (consola s) (ultimaLineaCSV s) v (trace s).

Definition emit (e : Event) (s : State) : State :=
  mkState (estado s) (nombreArchivo s) (logFile s) (lastLoop s) (tiempo_s s)
          (consola s) (ultimaLineaCSV s) (lastWebPushMs s) (e :: trace s).

(** The globals as their initializers leave them, before setup. *)
Definition boot : State :=
  mkState 0 "" None 0 0 "" "" 0 [].

Definition nl : string := String "010" EmptyString.

(** The truncation of logMsg: the console keeps its last [MAX_LEN] bytes. *)
Definition keep_last (c : string) : string :=
  if MAX_LEN <? Z.of_nat (length c)
  then substring (length c - Z.to_nat MAX_LEN) (Z.to_nat MAX_LEN) c
  else c.

(** logMsg: the message goes to Serial and to the web console. *)
Definition logMsg (msg : string) (s : State) : State :=
  let s := emit (SerialPrintln msg) s in
  set_consola (keep_last (consola s ++ msg ++ nl)) s.

Definition serial_lines (ls : list string) (s : State) : State :=
  fold_left (fun st l => emit (SerialPrintln l) st) ls s.

Definition mostrarMenu (s : State) : State :=
  serial_lines
    [ ""; ""; ""; ""; ""; "";
      "Bienvenido al asistente del Datalogger";
      "Para elegir un comando de la lista, escribe la letra en minúscula. Por ejemplo: a";
      "a) Iniciar sesión de medida";
      "b) Leer un archivo en el PC";
      "c) Borrar un archivo";
      "Durante una sesión de medida, escriba 'back' para detener y volver al menú";
      "" ]%string s.

(** What the collaborators answer during one call: the result of the
    SD.open or SD.remove it makes, whether a line written to the file went
    through, and the value of millis(). *)
Record Env := mkEnv {
  sd_ok : bool;
  write_ok : bool;
  millis : Z
}.

(** The source returns [bool] from iniciarSesionMedida and reports which
    check failed through logMsg; the result type names the branch taken.
    [start_ok] is the returned [bool]. *)
Inductive StartResult := Started | InvalidName | AlreadyActive | StorageUnavailable.

Definition start_ok (r : StartResult) : bool :=
  match r with
  | Started => true
  | _ => false
  end.

Definition CSV_HEADER : string :=
  "t_s,VBUS1,VSHUNT1,I1,P1,VBUS2,VSHUNT2,I2,P2,VPZ,IPZ,PPZ,EPZ,FPZ,PF_PZ".

Definition iniciarSesionMedida (baseName origen : string) (e : Env) (s : State)
  : StartResult * State :=
  if negb (nombreValidoBasico baseName) then
    (InvalidName, logMsg (origen ++ ": ERROR nombre inválido.") s)
  else if (estado s =? 4) && is_open (logFile s) then
    (AlreadyActive,
     logMsg (origen ++ ": Ya hay una sesión activa. Para antes la sesión.") s)
  else
    let s := set_nombreArchivo (buildCsvFilenameFromBase baseName) s in
    let s := logMsg (origen ++ ": Nombre solicitado = " ++ baseName) s in
    let s := logMsg (origen ++ ": Nombre final (8.3) = " ++ nombreArchivo s) s in
    let s := emit (SdOpenWrite (nombreArchivo s) (sd_ok e)) s in
    let s := set_logFile (if sd_ok e then Some (nombreArchivo s) else None) s in
    if negb (is_open (logFile s)) then
      let s := logMsg (origen ++ ": ERROR no se pudo crear/abrir el archivo en SD.") s in
      (StorageUnavailable, set_estado 0 s)
    else
      let s := emit (FilePrintln CSV_HEADER (write_ok e)) s in
      let s := emit FileFlush s in
      let s := set_tiempo_s 0 s in
      let s := set_lastLoop (millis e) s in
      let s := set_estado 4 s in
      (Started,
       logMsg (origen ++ ": Sesión iniciada. Escriba 'back' o use STOP en la web.") s).

(** pararSesionMedida returns nothing; the result names the branch taken. *)
Inductive StopResult := Stopped | NotActive.

Definition pararSesionMedida (origen : string) (s : State)
  : StopResult * State :=
  if estado s =? 4 then
    let s := logMsg (origen ++ ": Deteniendo sesión de medida...") s in
    let s := if is_open (logFile s)
             then set_logFile None (emit FileClose s) else s in
    let s := set_estado 0 s in
    (Stopped, mostrarMenu s)
  else
    (NotActive, logMsg (origen ++ ": No hay sesión activa.") s).

(** ** HTTP front end *)

Definition processWebCommand (op name : string) (e : Env) (s : State) : State :=
  if String.eqb op "start" then snd (iniciarSesionMedida name "WEB" e s)
  else if String.eqb op "stop" then snd (pararSesionMedida "WEB" s)
  else if String.eqb op "delete" then
    let fname := trim name in
    if (length fname =? 0)%nat then s
    else if (estado s =? 4) && (0 <? length (nombreArchivo s))%nat
            && equalsIgnoreCase fname (nombreArchivo s) then
      logMsg ("WEB: No se puede borrar el archivo en uso (" ++ nombreArchivo s
              ++ "). Para la sesión primero.") s
    else
      let s := logMsg ("WEB: Borrando " ++ fname) s in
      let s := emit (SdRemove fname (sd_ok e)) s in
      if sd_ok e then logMsg "WEB: Borrado OK" s
      else logMsg "WEB: Error al borrar" s
  else logMsg ("WEB: Comando desconocido: " ++ op) s.

(** The path of the request line: the text between the first two spaces of
    a GET request, and "/" otherwise. *)
Definition request_path (req : string) : string :=
  if startsWith req "GET " then
    let a := indexOfChar req " " 0 in
    let b := indexOfChar req " " (a + 1) in
    if (0 <? a) && (a <? b) then substring2 req (a + 1) b else "/"%string
  else "/"%string.

(** The value of [key] (written with its equals sign) in the query, up to
    the next ampersand; empty when the key is absent. *)
Definition query_value (query key : string) : string :=
  let pos := indexOfStr query key in
  if 0 <=? pos then
    let amp := indexOfChar query "&" pos in
    let from := pos + Z.of_nat (length key) in
    if 0 <=? amp then substring2 query from amp else substring1 query from
  else EmptyString.

(** handleWifiClient.  [req] is the first line of the request of a pending
    client, [None] when no client is pending or none sent data in time. *)
Definition handleWifiClient (req : option string) (e : Env) (s : State) : State :=
  match req with
  | None => s
  | Some req =>
      let path := request_path req in
      if String.eqb path "/" then emit (Http MainPage) s
      else if String.eqb path "/log" then emit (Http (LogData (consola s))) s
      else if String.eqb path "/last" then
        emit (Http (LastData (ultimaLineaCSV s))) s
      else if startsWith path "/download?name=" then
        let filename := substring1 path (Z.of_nat (length "/download?name=")) in
        emit (Http (Download filename (sd_ok e)))
             (emit (SdOpenRead filename (sd_ok e)) s)
      else if startsWith path "/cmd?" then
        let query := substring1 path (indexOfChar path "?" 0 + 1) in
        let op := query_value query "op=" in
        let name := query_value query "name=" in
        emit (Http CmdOK) (processWebCommand op name e s)
      else emit (Http Redirect) s
  end.

(** ** Console front end: step 2 of loop *)

(** [line] is what Serial.readStringUntil returns when input is available,
    [None] when Serial.available() is 0. *)
Definition serial_step (line : option string) (e : Env) (s : State) : State :=
  match line with
  | None => s
  | Some raw =>
      let entrada := trim raw in
      if estado s =? 0 then
        if String.eqb entrada "a" then
          set_estado 1
            (logMsg "Elige un nombre base para el archivo (se añadirá .CSV). Ej: 11-12-2025" s)
        else if String.eqb entrada "b" then
          let s := logMsg "Escribe el nombre del archivo que quieres volcar por Serial (incluye .CSV):" s in
          set_estado 2 (emit SerialDirectory s)
        else if String.eqb entrada "c" then
          set_estado 3
            (logMsg "Escribe el nombre del archivo que quieres borrar (incluye .CSV):" s)
        else logMsg "FALLO: comando no reconocido." s
      else if estado s =? 1 then
        if String.eqb entrada "back" then mostrarMenu (set_estado 0 s)
        else
          let (r, s) := iniciarSesionMedida entrada "SERIAL" e s in
          if start_ok r then s else mostrarMenu (set_estado 0 s)
      else if estado s =? 2 then
        if String.eqb entrada "back" then mostrarMenu (set_estado 0 s)
        else
          let s := emit (SdOpenRead entrada (sd_ok e)) s in
          let s :=
            if negb (sd_ok e) then
              logMsg "ERROR: no se pudo abrir el archivo para lectura." s
            else
              let s := logMsg "----- INICIO DEL ARCHIVO -----" s in
              let s := emit (SerialDump entrada) s in
              logMsg "----- FIN DEL ARCHIVO -----" s in
          logMsg "Escribe 'back' para volver al menú o el nombre de otro archivo para leerlo." s
      else if estado s =? 3 then
        if String.eqb entrada "back" then mostrarMenu (set_estado 0 s)
        else
          let s :=
            if is_open (logFile s) && (0 <? length (nombreArchivo s))%nat
               && equalsIgnoreCase entrada (nombreArchivo s) then
              logMsg "ERROR: No puedes borrar el archivo en uso. Para la sesión primero." s
            else
              let s := emit (SdRemove entrada (sd_ok e)) s in
              if sd_ok e then logMsg ("Archivo borrado: " ++ entrada) s
              else logMsg ("ERROR: no se pudo borrar el archivo: " ++ entrada) s in
          logMsg "Escribe 'back' para volver al menú o el nombre de otro archivo para borrar." s
      else if estado s =? 4 then
        if String.eqb entrada "back" then snd (pararSesionMedida "SERIAL" s)
        else logMsg "Sesión activa. Escriba 'back' para detener." s
      else s
  end.

(** ** Measurements and the sampling step

    The sketch computes on [float] and prints with [String(float, n)]; both
    belong to the platform.  They are taken as an interface, so that every
    result below holds for whatever arithmetic and printing the board has. *)
Class FloatOps := {
  float : Type;
  float_of_int : Z -> float;
  fmul : float -> float -> float;
  fsub : float -> float -> float;
  R_EQ : float;
  corrector_offset : float;
  String_float : float -> nat -> string
}.

(** [String(unsigned long)]: the decimal numeral. *)
Definition String_ulong (z : Z) : string :=
  NilZero.string_of_uint (N.to_uint (Z.to_N z)).

Section Sampling.
Context {F : FloatOps}.

Definition correctVoltage (vbus currentA : float) : float :=
  fsub vbus (fmul currentA R_EQ).

Record InaReading := mkIna {
  getBusVoltage : float;
  getShuntVoltage : float;
  getCurrent : float;
  getPower : float
}.

Record PzemReading := mkPzem {
  voltaje : float;
  corriente : float;
  potencia : float;
  energia : float;
  frecuencia : float;
  pf : float
}.

(** What the collaborators answer during one sampling step: millis() at the
    check, the two INA226 readings, pzem.readAll ([None] when it returns
    false), whether the line written to the file went through, and millis()
    at the test and at the update of the web snapshot. *)
Record TickEnv := mkTick {
  ahora : Z;
  ina1 : InaReading;
  ina2 : InaReading;
  pzem_readAll : option PzemReading;
  println_ok : bool;
  millis_push_test : Z;
  millis_push_set : Z
}.

(** The six energy-meter values after the [if (!okPZEM)] of loop. *)
Definition pzem_values (r : option PzemReading) : PzemReading :=
  match r with
  | Some p => p
  | None =>
      let m := float_of_int (-1) in mkPzem m m m m m m
  end.

Definition busVoltage1 (r : InaReading) : float :=
  correctVoltage (fmul (getBusVoltage r) (float_of_int 4)) (getCurrent r).

Definition power1_W (r : InaReading) : float :=
  fmul (getPower r) (float_of_int 4).

Definition busVoltage2 (r : InaReading) : float :=
  fmul (correctVoltage (getBusVoltage r) (getCurrent r)) corrector_offset.

(** The fields of the record that come from the counter and the two
    INA226 readings. *)
Definition ina_fields (t : Z) (r1 r2 : InaReading) : list string :=
  [ String_ulong t;
    String_float (busVoltage1 r1) 4;
    String_float (getShuntVoltage r1) 6;
    String_float (getCurrent r1) 6;
    String_float (power1_W r1) 4;
    String_float (busVoltage2 r2) 4;
    String_float (getShuntVoltage r2) 6;
    String_float (getCurrent r2) 6;
    String_float (getPower r2) 4 ].

(** The fields of the record that come from the energy meter. *)
Definition pzem_fields (p : PzemReading) : list string :=
  [ String_float (voltaje p) 3;
    String_float (corriente p) 3;
    String_float (potencia p) 3;
    String_float (energia p) 3;
    String_float (frecuencia p) 2;
    String_float (pf p) 3 ].

(** The fifteen fields of a record, in order. *)
Definition record_fields (t : Z) (e : TickEnv) : list string :=
  ina_fields t (ina1 e) (ina2 e) ++ pzem_fields (pzem_values (pzem_readAll e)).

(** [dataString]: the fields separated by commas. *)
Definition dataString (t : Z) (e : TickEnv) : string :=
  String.concat "," (record_fields t e).

(** The lighter line kept for the web page. *)
Definition web_line (t : Z) (e : TickEnv) : string :=
  let m := float_of_int (-1) in
  let ipz := match pzem_readAll e with Some p => corriente p | None => m end in
  let ppz := match pzem_readAll e with Some p => potencia p | None => m end in
  String.concat ","
    [ String_ulong t;
      String_float (busVoltage1 (ina1 e)) 3;
      String_float (getCurrent (ina1 e)) 3;
      String_float (power1_W (ina1 e)) 2;
      String_float (busVoltage2 (ina2 e)) 3;
      String_float (getCurrent (ina2 e)) 3;
      String_float (getPower (ina2 e)) 2;
      String_float ipz 3;
      String_float ppz 2 ].

(** The test of step 3 of loop: a session is being logged and a period has
    elapsed since [lastLoop], in unsigned 32-bit arithmetic. *)
Definition tick_due (e : TickEnv) (s : State) : bool :=
  (estado s =? 4) && is_open (logFile s)
  && (PERIODO_LOG_MS <=? wrap32 (ahora e - lastLoop s)).

(** Step 3 of loop: periodic logging. *)
Definition logging_step (e : TickEnv) (s : State) : State :=
  if (estado s =? 4) && is_open (logFile s) then
    if PERIODO_LOG_MS <=? wrap32 (ahora e - lastLoop s) then
      let s := set_lastLoop (wrap32 (lastLoop s + PERIODO_LOG_MS)) s in
      let s := set_tiempo_s (wrap32 (tiempo_s s + 1)) s in
      let line := dataString (tiempo_s s) e in
      let s := emit (FilePrintln line (println_ok e)) s in
      let s := emit (SerialPrintln line) s in
      if PERIODO_WEB_MS <=? wrap32 (millis_push_test e - lastWebPushMs s) then
        let s := set_lastWebPushMs (millis_push_set e) s in
        set_ultimaLineaCSV (web_line (tiempo_s s) e) s
      else s
    else s
  else s.

(** What one iteration of loop receives from outside. *)
Record LoopInput := mkLoopInput {
  web_request : option string;
  web_env : Env;
  serial_line : option string;
  serial_env : Env;
  tick_env : TickEnv
}.

Definition loop (i : LoopInput) (s : State) : State :=
  let s := handleWifiClient (web_request i) (web_env i) s in
  let s := serial_step (serial_line i) (serial_env i) s in
  logging_step (tick_env i) s.

End Sampling.

(** ** setup *)

Record SetupEnv := mkSetupEnv {
  setup_millis : Z;
  ina1_begin : bool;
  ina2_begin : bool;
  sd_begin : bool;
  ap_listening : bool;
  local_ip : string
}.

(** setup; [None] when the access point cannot be created and the sketch
    spins forever. *)
Definition setup (e : SetupEnv) (s : State) : option State :=
  let s := emit (SerialPrintln "DEBUG: setup() iniciado") s in
  let s := set_lastLoop (setup_millis e) s in
  let s := set_tiempo_s 0 s in
  let s := logMsg (if ina1_begin e then "INA226 #1 inicializado"
                   else "Error: INA226 #1 no responde")%string s in
  let s := logMsg (if ina2_begin e then "INA226 #2 inicializado"
                   else "Error: INA226 #2 no responde")%string s in
  let s := logMsg (if sd_begin e then "Tarjeta SD inicializada correctamente"
                   else "Error: no se pudo inicializar la tarjeta SD")%string s in
  let s := logMsg "Inicializando PZEM (PZEMPlus)..." s in
  let s := logMsg "PZEMPlus: begin() llamado" s in
  let s := logMsg "Creando Access Point WiFi..." s in
  if negb (ap_listening e) then None
  else
    let s := logMsg "AP creado. SSID: datalogger_IES" s in
    let s := logMsg ("Abre en el navegador: http://" ++ local_ip e) s in
    let s := logMsg "Servidor HTTP iniciado." s in
    let s := emit (SerialPrintln "DEBUG: setup() terminado, mostrando menú") s in
    Some (mostrarMenu s).

(** The states the sketch can be in at the top of loop. *)
Inductive reachable {F : FloatOps} : State -> Prop :=
| reach_setup e s : setup e boot = Some s -> reachable s
| reach_loop i s : reachable s -> reachable (loop i s).

(** ** Predicates of the specification *)

(** A recording session is active: the test of iniciarSesionMedida and of
    step 3 of loop. *)
Definition Active (s : State) : Prop :=
  estado s = 4 /\ is_open (logFile s) = true.

(** Control mode SessionActive exactly when the output handle is open. *)
Definition mode_matches_handle (s : State) : Prop :=
  estado s = 4 <-> is_open (logFile s) = true.

(** The session and control variables: everything but the console text
    and the trace of effects. *)
Definition same_session (s s' : State) : Prop :=
  estado s' = estado s /\ nombreArchivo s' = nombreArchivo s /\
  logFile s' = logFile s /\ lastLoop s' = lastLoop s /\
  tiempo_s s' = tiempo_s s /\ ultimaLineaCSV s' = ultimaLineaCSV s /\
  lastWebPushMs s' = lastWebPushMs s.

(** The names on which SD.remove was called, newest first. *)
Fixpoint removals (t : list Event) : list string :=
  match t with
  | [] => []
  | SdRemove n _ :: r => n :: removals r
  | _ :: r => removals r
  end.

(** The lines printed to the log file, newest first, each with whether the
    write went through. *)
Fixpoint file_lines (t : list Event) : list (string * bool) :=
  match t with
  | [] => []
  | FilePrintln l ok :: r => (l, ok) :: file_lines r
  | _ :: r => file_lines r
  end.

(** No session: the control mode is not SessionActive, the test of
    pararSesionMedida. *)
Definition Idle (s : State) : Prop := estado s <> 4.

(** [String(-1.0f, n)] as the platform prints it for the precisions of the
    energy-meter fields: a minus sign, 1, the point and [n] zeros. *)
Definition prints_minus_one (F : FloatOps) : Prop :=
  String_float (float_of_int (-1)) 3 = "-1.000"%string /\
  String_float (float_of_int (-1)) 2 = "-1.00"%string.

(** The energy-meter fields of a record whose read failed. *)
Definition sentinel_fields : list string :=
  [ "-1.000"; "-1.000"; "-1.000"; "-1.000"; "-1.00"; "-1.000" ]%string.

(** ** An executable instance of the float interface

    Values are fixed-point numbers with six decimals (the integer [v]
    stands for [v / 10^6]) and are printed rounded to the nearest at the
    asked number of decimals (at most six), a half going away from zero.
    It serves to run the model on concrete inputs. *)
Definition fx_scale : Z := 1000000.

Fixpoint zeros (n : nat) : string :=
  match n with
  | O => EmptyString
  | S k => String "0" (zeros k)
  end.

Definition pad_zeros (d : nat) (s : string) : string :=
  (zeros (d - length s) ++ s)%string.

Definition fx_string (v : Z) (d : nat) : string :=
  let a := Z.abs v in
  let unit := 10 ^ (6 - Z.of_nat d) in
  let r := (2 * a + unit) / (2 * unit) in
  let ip := r / 10 ^ Z.of_nat d in
  let fp := r mod 10 ^ Z.of_nat d in
  ((if (v <? 0)%Z then "-" else "") ++ String_ulong ip ++ "."
   ++ pad_zeros d (String_ulong fp))%string.

#[export] Instance FixedPoint : FloatOps := {|
  float := Z;
  float_of_int z := z * fx_scale;
  fmul a b := a * b / fx_scale;
  fsub a b := a - b;
  R_EQ := 26000;
  corrector_offset := 986985;
  String_float := fx_string
|}.

End Datalogger.

(** ** Concrete runs used by the examples *)
Module Scenario.
Import Datalogger.
Open Scope Z_scope.

Definition env_ok : Env := mkEnv true true 5000.
Definition env_fail : Env := mkEnv false false 5000.

(** A session started from the web on the label 2025-01-14. *)
Definition recording : State :=
  snd (iniciarSesionMedida "2025-01-14" "WEB" env_ok boot).

Definition ina_a : InaReading := mkIna 3000000 1500 2000000 6000000.
Definition ina_b : InaReading := mkIna 12500000 800 1100000 13750000.

Definition pzem_a : PzemReading :=
  mkPzem 230100000 1234567 283000000 1500000 50000000 990000.

(** A sampling step at time [t]: energy-meter answer [p], file write
    result [ok]. *)
Definition tick_at (t : Z) (p : option PzemReading) (ok : bool) : TickEnv :=
  mkTick t ina_a ina_b p ok t t.

(** The console in delete mode while a handle is open: a state that no run
    of the sketch reaches, used to exercise the guard of the console. *)
Definition delete_mode_with_handle : State := set_estado 3 recording.

End Scenario.

(** ** Replaying a trace: the storage protocol and the session file *)
Module Protocol.
Import WString Filename Datalogger.
Open Scope Z_scope.

(** Events that touch neither the output file nor the stored files. *)
Definition quiet (ev : Event) : bool :=
  match ev with
  | SerialPrintln _ | SerialDirectory | SerialDump _
  | SdOpenRead _ _ | Http _ => true
  | _ => false
  end.

(** One call replayed against the output handle [h].  The result is [None]
    when the call is out of place: an open for writing while a handle is
    open, a write, flush or close without an open handle, or a remove of
    the name of the open file (up to case).  Otherwise it is the handle
    after the call. *)
Definition handle_step (h : File) (ev : Event) : option File :=
  match ev with
  | SdOpenWrite n ok =>
      if is_open h then None else Some (if ok then Some n else None)
  | FilePrintln _ _ | FileFlush => if is_open h then Some h else None
  | FileClose => if is_open h then Some None else None
  | SdRemove n _ =>
      match h with
      | Some f => if equalsIgnoreCase n f then None else Some h
      | None => Some h
      end
  | _ => Some h
  end.

(** The replay of a whole trace (newest event first), from a closed
    handle. *)
Fixpoint handle_after (t : list Event) : option File :=
  match t with
  | [] => Some None
  | ev :: r =>
      match handle_after r with
      | Some h => handle_step h ev
      | None => None
      end
  end.

(** The lines printed to the file since it was last opened for writing,
    newest first. *)
Fixpoint session_lines (t : list Event) : list (string * bool) :=
  match t with
  | [] => []
  | SdOpenWrite _ _ :: _ => []
  | FilePrintln l ok :: r => (l, ok) :: session_lines r
  | _ :: r => session_lines r
  end.

Section Numbering.
Context {F : FloatOps}.

(** The records of the sampling steps [fs], oldest first, counted from
    [t + 1] in 32-bit unsigned arithmetic. *)
Fixpoint numbered (t : Z) (fs : list TickEnv) : list (string * bool) :=
  match fs with
  | [] => []
  | e :: r => (dataString (wrap32 (t + 1)) e, println_ok e) :: numbered (t + 1) r
  end.

(** Consecutive sampling steps. *)
Fixpoint run_ticks (es : list TickEnv) (s : State) : State :=
  match es with
  | [] => s
  | e :: r => run_ticks r (logging_step e s)
  end.

(** What every state of a run satisfies: the control mode is one of the
    five, the web console is within its bound, an open handle is on the
    file named by [nombreArchivo], which has an 8.3 name, the storage calls
    made so far respect the protocol and leave the handle as [logFile]
    says, and the file of an open session holds the header followed by the
    records counted from 1. *)
Definition Sound (s : State) : Prop :=
  0 <= estado s <= 4 /\
  Z.of_nat (length (consola s)) <= MAX_LEN /\
  (forall f, logFile s = Some f -> nombreArchivo s = f /\ matches_83 f) /\
  handle_after (trace s) = Some (logFile s) /\
  (is_open (logFile s) = true ->
   exists es okh,
     session_lines (trace s) = (rev (numbered 0 es) ++ [(CSV_HEADER, okh)])%list /\
     tiempo_s s = wrap32 (Z.of_nat (List.length es))).

End Numbering.

(** [s] ends with [x]. *)
Definition ends_with (s x : string) : Prop := exists pre, s = (pre ++ x)%string.

End Protocol.

(** ** printDirectory *)
Module Listing.
Import Datalogger.
Open Scope Z_scope.

#[local] Set Warnings "-register-all".

(** An entry of the card as openNextFile hands it out: a file with its size
    or a directory with its entries. *)
Inductive Entry :=
| EFile (name : string) (size : Z)
| EDir (name : string) (children : list Entry).

(** One printed line, as the three parts the function prints in turn: the
    tabs, the name of the entry, and what follows the name. *)
Record Line := mkLine {
  line_indent : string;
  line_name : string;
  line_tail : string
}.

Definition tab : string := String "009" EmptyString.

Fixpoint tabs (n : nat) : string :=
  match n with
  | O => EmptyString
  | S k => (tab ++ tabs k)%string
  end.

(** The loop [for (uint8_t i = 0; i < numTabs; i++) Serial.print(tab)],
    run for [fuel] tests of its condition at most.  [i] is the eight-bit
    counter: it is compared with the int [numTabs] and its increment wraps
    from 255 to 0.  [out] is what has been printed; the result is [None]
    when the tests run out before the condition fails. *)
Fixpoint tab_loop (fuel : nat) (i numTabs : Z) (out : string) : option string :=
  match fuel with
  | O => None
  | S k =>
      if i <? numTabs
      then tab_loop k ((i + 1) mod 256) numTabs (out ++ tab)
      else Some out
  end.

(** The lines one entry produces, with the entries below it; [fuel] bounds
    each run of the tab loop. *)
Fixpoint printEntry (fuel : nat) (numTabs : Z) (e : Entry) {struct e}
  : option (list Line) :=
  match tab_loop fuel 0 numTabs EmptyString with
  | None => None
  | Some t =>
      match e with
      | EFile n sz =>
          Some [mkLine t n (tab ++ tab ++ String_ulong sz)]
      | EDir n ch =>
          match (fix entries (l : list Entry) : option (list Line) :=
                   match l with
                   | [] => Some []
                   | c :: r =>
                       match printEntry fuel (numTabs + 1) c with
                       | None => None
                       | Some a =>
                           match entries r with
                           | None => None
                           | Some b => Some (a ++ b)%list
                           end
                       end
                   end) ch with
          | None => None
          | Some sub => Some (mkLine t n "/" :: sub)
          end
      end
  end.

(** printDirectory(dir, numTabs): the lines sent to Serial, [None] when the
    call does not come back within the fuel. *)
Fixpoint printDirectory (fuel : nat) (dir : list Entry) (numTabs : Z)
  : option (list Line) :=
  match dir with
  | [] => Some []
  | c :: r =>
      match printEntry fuel numTabs c with
      | None => None
      | Some a =>
          match printDirectory fuel r numTabs with
          | None => None
          | Some b => Some (a ++ b)%list
          end
      end
  end.

(** The names of a tree, each directory before its entries. *)
Fixpoint names_entry (e : Entry) : list string :=
  match e with
  | EFile n _ => [n]
  | EDir n ch => n :: fold_right (fun c acc => names_entry c ++ acc)%list [] ch
  end.

Definition names (dir : list Entry) : list string :=
  fold_right (fun c acc => names_entry c ++ acc)%list [] dir.

(** The nesting level of each entry of a tree listed at [numTabs], in the
    same order. *)
Fixpoint levels_entry (numTabs : Z) (e : Entry) : list Z :=
  match e with
  | EFile _ _ => [numTabs]
  | EDir _ ch =>
      numTabs
      :: fold_right (fun c acc => levels_entry (numTabs + 1) c ++ acc)%list [] ch
  end.

Definition levels (numTabs : Z) (dir : list Entry) : list Z :=
  fold_right (fun c acc => levels_entry numTabs c ++ acc)%list [] dir.

(** Every entry of [dir], listed at [numTabs], and every entry below it is
    listed with at most 255 tabs. *)
Fixpoint levels_ok_entry (numTabs : Z) (e : Entry) : bool :=
  (numTabs <=? 255) &&
  match e with
  | EFile _ _ => true
  | EDir _ ch => forallb (levels_ok_entry (numTabs + 1)) ch
  end.

Definition levels_ok (numTabs : Z) (dir : list Entry) : bool :=
  forallb (levels_ok_entry numTabs) dir.

(** What the listing of a tree is when it completes: the names in order,
    each behind as many tabs as its nesting level. *)
Definition listed (lines : list Line) (ns : list string) (ls : list Z) : Prop :=
  map line_name lines = ns /\
  map line_indent lines = map (fun k => tabs (Z.to_nat k)) ls.

(** A small card: two files, and a directory with a file and an empty
    directory. *)
Definition sample_card : list Entry :=
  [ EFile "LOG.CSV" 1200;
    EDir "OLD" [ EFile "A.CSV" 10; EDir "EMPTY" [] ];
    EFile "B.CSV" 0 ].

End Listing.

(** ** sendFileDownload *)
Module Download.
Import Datalogger.

(** What is sent to the HTTP client. *)
Inductive ClientOut :=
| ClientPrintln (s : string)
| ClientPrint (s : string)
| ClientWrite (bytes : list ascii).

Definition BUF_SIZE : nat := 256.

(** The loop [while (f.available()) { n = f.readBytes(buf, 256);
    client.write(buf, n); }] over the bytes left in the file.  Each round
    takes at least one byte, so [fuel] rounds are enough for [fuel]
    bytes. *)
Fixpoint read_loop (fuel : nat) (rest : list ascii) : list (list ascii) :=
  match fuel with
  | O => []
  | S k =>
      match rest with
      | [] => []
      | _ => firstn BUF_SIZE rest :: read_loop k (skipn BUF_SIZE rest)
      end
  end.

Definition quote : string := String "034" EmptyString.

(** sendFileDownload; [file] is the content of the file, [None] when
    SD.open fails. *)
Definition sendFileDownload (filename : string) (file : option (list ascii))
  : list ClientOut :=
  match file with
  | None =>
      [ ClientPrintln "HTTP/1.1 404 Not Found";
        ClientPrintln "Content-Type: text/plain; charset=utf-8";
        ClientPrintln "Connection: close";
        ClientPrintln "";
        ClientPrintln "Archivo no encontrado" ]
  | Some content =>
      [ ClientPrintln "HTTP/1.1 200 OK";
        ClientPrint ("Content-Disposition: attachment; filename=" ++ quote);
        ClientPrint filename;
        ClientPrintln quote;
        ClientPrintln "Content-Type: application/octet-stream";
        ClientPrintln "Connection: close";
        ClientPrintln "" ]
      ++ map ClientWrite (read_loop (List.length content) content)
  end.

(** The bytes of the body: what the calls of client.write carry. *)
Fixpoint body_bytes (out : list ClientOut) : list ascii :=
  match out with
  | [] => []
  | ClientWrite b :: r => b ++ body_bytes r
  | _ :: r => body_bytes r
  end.

End Download.

(** ** A concrete run from power-up *)
Module PowerUp.
Import Datalogger.
Open Scope Z_scope.

Definition setup_env : SetupEnv :=
  mkSetupEnv 120 true true true true "192.168.4.1".

(** The state at the first iteration of loop. *)
Definition booted : State :=
  match setup setup_env boot with
  | Some s => s
  | None => boot
  end.

(** An iteration that serves one HTTP request. *)
Definition web_input (req : string) (t : Z) : LoopInput :=
  mkLoopInput (Some req) (mkEnv true true t) None Scenario.env_ok
              (Scenario.tick_at t None true).

(** An iteration that serves one console line. *)
Definition serial_input (line : string) (t : Z) : LoopInput :=
  mkLoopInput None Scenario.env_ok (Some line) (mkEnv true true t)
              (Scenario.tick_at t None true).

(** An iteration without input at time [t]; the energy meter answers
    [p]. *)
Definition idle_input (t : Z) (p : option PzemReading) : LoopInput :=
  mkLoopInput None Scenario.env_ok None Scenario.env_ok
              (Scenario.tick_at t p true).

(** A session started from the web at 5000 ms, with two records. *)
Definition logged : State :=
  loop (idle_input 7000 (Some Scenario.pzem_a))
    (loop (idle_input 6000 None)
       (loop (web_input "GET /cmd?op=start&name=2025-01-14 HTTP/1.1" 5000)
          booted)).

End PowerUp.

(** * Facts about the string operations *)
Module WStringFacts.
Import WString.

Lemma all_chars_app (p : ascii -> bool) (a b : string) :
  all_chars p (a ++ b) = all_chars p a && all_chars p b.
Proof.
  induction a as [|c a IH]; simpl; [reflexivity|].
  rewrite IH. apply andb_assoc.
Qed.

Lemma length_app (a b : string) :
  length (a ++ b) = (length a + length b)%nat.
Proof.
  induction a as [|c a IH]; simpl; [reflexivity|]. now rewrite IH.
Qed.

Lemma equalsIgnoreCase_length (a b : string) :
  equalsIgnoreCase a b = true -> length a = length b.
Proof.
  revert b; induction a as [|x a IH]; intros [|y b]; simpl;
    try discriminate; [reflexivity|].
  intros H. apply andb_true_iff in H as [_ H]. f_equal. now apply IH.
Qed.

End WStringFacts.

(** * The filename sanitizer *)
Module FilenameFacts.
Import WString Filename WStringFacts.

Lemma es_invalido_has_char (c : ascii) (inv : string) :
  es_invalido c inv = has_char c inv.
Proof.
  induction inv as [|d r IH]; simpl; [reflexivity|].
  rewrite IH. now destruct (Ascii.eqb c d).
Qed.

Lemma tiene_invalido_rejected (nombre : string) :
  tiene_invalido nombre = has_rejected nombre.
Proof.
  unfold has_rejected.
  induction nombre as [|c r IH]; [reflexivity|].
  cbn [tiene_invalido all_chars]. rewrite es_invalido_has_char, IH.
  now destruct (has_char c invalidos).
Qed.

(** The basic check accepts exactly the labels that are not empty, do not
    start with a dot and hold no rejected character. *)
Lemma nombreValidoBasico_rejected (raw : string) :
  nombreValidoBasico raw = negb (rejected_label raw).
Proof.
  unfold nombreValidoBasico, rejected_label, starts_with_dot.
  rewrite <- tiene_invalido_rejected.
  destruct raw as [|c r]; [reflexivity|].
  cbn [length Nat.eqb orb].
  destruct (Ascii.eqb_spec c "."%char) as [->|Hc]; [reflexivity|].
  cbn [orb].
  destruct c as [[] [] [] [] [] [] [] []]; try reflexivity.
  now elim Hc.
Qed.

Lemma letra_o_digito_stem (c : ascii) :
  es_letra_o_digito c = true -> stem_char c = true.
Proof.
  unfold es_letra_o_digito, stem_char. intros ->. reflexivity.
Qed.

(** Invariant of the loop of to83BaseName: [out] stays within eight
    characters of the class [A-Z0-9_]. *)
Lemma to83_loop_stem (input : string) :
  forall out,
    (length out <= 8)%nat -> all_chars stem_char out = true ->
    (length (to83_loop input out) <= 8)%nat /\
    all_chars stem_char (to83_loop input out) = true.
Proof.
  induction input as [|c rest IH]; intros out Hlen Hall; cbn [to83_loop].
  - now split.
  - destruct (Nat.ltb_spec (length out) 8) as [Hlt|Hge]; [|now split].
    destruct (es_letra_o_digito c) eqn:Ec.
    + apply IH.
      * rewrite length_app. simpl. lia.
      * rewrite all_chars_app, Hall. simpl.
        now rewrite (letra_o_digito_stem c Ec).
    + destruct (es_separador c).
      * apply IH.
        -- rewrite length_app. simpl. lia.
        -- rewrite all_chars_app, Hall. reflexivity.
      * now apply IH.
Qed.

Lemma to83BaseName_stem (input : string) :
  stem_ok (to83BaseName input) = true.
Proof.
  unfold to83BaseName.
  destruct (to83_loop_stem (toUpperCase (trim input)) EmptyString)
    as [Hlen Hall]; [simpl; lia | reflexivity |].
  destruct (Nat.eqb_spec (length (to83_loop (toUpperCase (trim input)) "")) 0)
    as [_|Hne]; [reflexivity|].
  unfold stem_ok. rewrite Hall.
  apply andb_true_iff; split; [|reflexivity].
  apply andb_true_iff; split; [apply Nat.leb_le; lia | now apply Nat.leb_le].
Qed.

Lemma buildCsvFilenameFromBase_matches (base : string) :
  matches_83 (buildCsvFilenameFromBase base).
Proof.
  exists (to83BaseName base). split; [reflexivity | apply to83BaseName_stem].
Qed.

Example invalidos_chars :
  list_ascii_of_string invalidos
  = ["/"; "\"; ":"; "*"; "?"; "034"; "<"; ">"; "|"]%char.
Proof. reflexivity. Qed.

(** The labels of the specification: the stem is cut at eight characters
    before the extension is added, and bytes outside ASCII are dropped. *)
Example sanitize_labels :
  sanitize "11-12-2025" = Some "11_12_20.CSV" /\
  sanitize "2025-01-14" = Some "2025_01_.CSV" /\
  sanitize "medida fv.1" = Some "MEDIDA_F.CSV" /\
  sanitize "ñ" = Some "LOG.CSV".
Proof. repeat split; reflexivity. Qed.

(** C4 (as amended): the sanitizer fails on every raw label that is empty,
    starts with a dot or contains a character of the rejected set, and on
    every other raw label, the labels of white space included, it returns a
    name that matches the pattern of one to eight characters of [A-Z0-9_]
    followed by [.CSV]. *)
Theorem sanitize_rejects_or_matches (raw : string) :
  if rejected_label raw
  then sanitize raw = None
  else exists f, sanitize raw = Some f /\ matches_83 f.
Proof.
  unfold sanitize. rewrite nombreValidoBasico_rejected.
  destruct (rejected_label raw); cbn [negb].
  - reflexivity.
  - eexists. split; [reflexivity | apply buildCsvFilenameFromBase_matches].
Qed.

(** C4 as stated fails on a label of one space: its trimmed form is empty,
    yet the sanitizer accepts it and returns the fallback name. *)
Lemma sanitize_blank_label_accepted :
  trim " " = EmptyString /\ sanitize " " = Some "LOG.CSV".
Proof. split; reflexivity. Qed.

(** C5 (as amended): the empty label and the label of three dots are both
    turned down by the basic check; the name builder alone gives the
    fallback LOG.CSV for the empty label, as the sanitizer does for a blank
    label, and gives ___.CSV for the three dots. *)
Theorem sanitize_empty_and_dots :
  sanitize "" = None /\ sanitize "..." = None /\
  buildCsvFilenameFromBase "" = "LOG.CSV" /\
  buildCsvFilenameFromBase "..." = "___.CSV" /\
  sanitize " " = Some "LOG.CSV".
Proof. repeat split; reflexivity. Qed.

(** C5 as stated fails: neither label is sanitized to LOG.CSV. *)
Lemma sanitize_empty_and_dots_not_LOG :
  sanitize "" <> Some "LOG.CSV" /\ sanitize "..." <> Some "LOG.CSV".
Proof. split; discriminate. Qed.

End FilenameFacts.

(** * The session manager and the command dispatch *)
Module SessionFacts.
Import WString Filename Datalogger WStringFacts FilenameFacts.
Open Scope Z_scope.

(** Reading a global after logMsg, mostrarMenu or an assignment. *)
Ltac globals :=
  cbn [fold_left estado nombreArchivo logFile lastLoop tiempo_s consola
       ultimaLineaCSV lastWebPushMs trace removals file_lines is_open
       fst snd negb logMsg mostrarMenu serial_lines set_estado
       set_nombreArchivo set_logFile set_lastLoop set_tiempo_s set_consola
       set_ultimaLineaCSV set_lastWebPushMs emit].

Lemma same_session_refl (s : State) : same_session s s.
Proof. repeat split. Qed.

Lemma same_session_trans (a b c : State) :
  same_session a b -> same_session b c -> same_session a c.
Proof.
  unfold same_session. intros H1 H2.
  decompose [and] H1. decompose [and] H2. repeat split; congruence.
Qed.

Lemma same_session_logMsg (msg : string) (s : State) :
  same_session s (logMsg msg s).
Proof. unfold same_session. globals. repeat split. Qed.

Lemma removals_logMsg (msg : string) (s : State) :
  removals (trace (logMsg msg s)) = removals (trace s).
Proof. reflexivity. Qed.

Lemma file_lines_logMsg (msg : string) (s : State) :
  file_lines (trace (logMsg msg s)) = file_lines (trace s).
Proof. reflexivity. Qed.

Lemma Active_tests (s : State) :
  Active s -> (estado s =? 4) = true /\ is_open (logFile s) = true.
Proof. intros [H1 H2]. split; [now apply Z.eqb_eq | exact H2]. Qed.

(** The branch iniciarSesionMedida takes, from its three tests. *)
Lemma iniciarSesionMedida_result (raw origen : string) (e : Env) (s : State) :
  fst (iniciarSesionMedida raw origen e s) =
    if negb (nombreValidoBasico raw) then InvalidName
    else if (estado s =? 4) && is_open (logFile s) then AlreadyActive
    else if sd_ok e then Started else StorageUnavailable.
Proof.
  unfold iniciarSesionMedida.
  destruct (nombreValidoBasico raw); cbn [negb]; [|reflexivity].
  destruct ((estado s =? 4) && is_open (logFile s)); [reflexivity|].
  globals. now destruct (sd_ok e).
Qed.

(** C1 (as amended): while a session is active, start fails on every raw
    label, with InvalidName when the basic check turns the label down and
    with AlreadyActive otherwise; in both cases the file name, the sample
    counter, the output handle, the control mode and the schedule are as
    before, and the only effect is the message that reports the failure. *)
Theorem start_while_active (s : State) (raw origen : string) (e : Env) :
  Active s ->
  let r := iniciarSesionMedida raw origen e s in
  fst r = (if nombreValidoBasico raw then AlreadyActive else InvalidName) /\
  same_session s (snd r) /\
  exists msg, trace (snd r) = SerialPrintln msg :: trace s.
Proof.
  intros Hact. destruct (Active_tests s Hact) as [H4 Hopen].
  unfold iniciarSesionMedida. rewrite H4, Hopen.
  destruct (nombreValidoBasico raw); cbn [negb andb fst snd];
    (split; [reflexivity|]); (split; [apply same_session_logMsg|]);
    eexists; reflexivity.
Qed.

Lemma start_while_active_witness :
  fst (iniciarSesionMedida "otro" "SERIAL" Scenario.env_ok Scenario.recording)
    = AlreadyActive.
Proof.
  exact (proj1 (start_while_active Scenario.recording "otro" "SERIAL"
                  Scenario.env_ok (conj eq_refl eq_refl))).
Defined.

(** C1 as stated fails on a rejected label: with a session active, start on
    the label [a/b] fails with InvalidName, not AlreadyActive. *)
Lemma start_while_active_invalid_label :
  Active Scenario.recording /\
  fst (iniciarSesionMedida "a/b" "WEB" Scenario.env_ok Scenario.recording)
    = InvalidName.
Proof. split; [split|]; reflexivity. Qed.

(** C9: with no session, stop reports NotActive and changes none of the
    session and control variables; a second stop reports the same message
    again and leaves them as the first did. *)
Theorem stop_without_session (s : State) (origen : string) :
  Idle s ->
  let r1 := pararSesionMedida origen s in
  let r2 := pararSesionMedida origen (snd r1) in
  let report := SerialPrintln (origen ++ ": No hay sesión activa.") in
  fst r1 = NotActive /\ fst r2 = NotActive /\
  same_session s (snd r1) /\ same_session (snd r1) (snd r2) /\
  trace (snd r1) = report :: trace s /\
  trace (snd r2) = report :: trace (snd r1) /\
  removals (trace (snd r2)) = removals (trace s) /\
  file_lines (trace (snd r2)) = file_lines (trace s).
Proof.
  intros Hidle. apply Z.eqb_neq in Hidle.
  unfold pararSesionMedida. rewrite Hidle. cbn [fst snd].
  assert (E : (estado (logMsg (origen ++ ": No hay sesión activa.") s) =? 4)
              = false) by exact Hidle.
  rewrite E. cbn [fst snd].
  repeat split.
Qed.

Lemma stop_without_session_witness :
  fst (pararSesionMedida "WEB" (snd (pararSesionMedida "WEB" boot)))
    = NotActive.
Proof.
  assert (H : Idle boot) by (unfold Idle; cbn; lia).
  exact (proj1 (proj2 (stop_without_session boot "WEB" H))).
Defined.

(** C10: a start that fails on the storage open leaves the control mode at
    Menu whatever it was, also for a start from the web while the console
    waits for a name to read or to delete; a start that fails with
    InvalidName or AlreadyActive leaves the control mode as it was. *)
Theorem failed_start_mode (s : State) (raw origen : string) (e : Env) :
  let r := iniciarSesionMedida raw origen e s in
  match fst r with
  | StorageUnavailable => estado (snd r) = 0
  | InvalidName | AlreadyActive => estado (snd r) = estado s
  | Started => estado (snd r) = 4
  end /\
  processWebCommand "start" raw e s = snd (iniciarSesionMedida raw "WEB" e s) /\
  (estado s = 2 \/ estado s = 3 ->
   nombreValidoBasico raw = true -> sd_ok e = false ->
   fst (iniciarSesionMedida raw "WEB" e s) = StorageUnavailable /\
   estado (processWebCommand "start" raw e s) = 0).
Proof.
  cbn zeta. split; [|split].
  - unfold iniciarSesionMedida.
    destruct (nombreValidoBasico raw); cbn [negb]; [|reflexivity].
    destruct ((estado s =? 4) && is_open (logFile s)); [reflexivity|].
    globals. now destruct (sd_ok e).
  - reflexivity.
  - intros Hmode Hvalid Hsd.
    assert (H4 : (estado s =? 4) = false) by (apply Z.eqb_neq; lia).
    unfold processWebCommand. cbn [String.eqb Ascii.eqb Bool.eqb].
    unfold iniciarSesionMedida. rewrite Hvalid, H4, Hsd. split; reflexivity.
Qed.

Lemma failed_start_mode_witness :
  estado (processWebCommand "start" "abc" Scenario.env_fail
            (set_estado 3 boot)) = 0.
Proof.
  exact (proj2 (proj2 (proj2 (failed_start_mode (set_estado 3 boot) "abc" "WEB"
                                Scenario.env_fail))
                 (or_intror eq_refl) eq_refl eq_refl)).
Defined.

End SessionFacts.

(** * The control mode and the output handle *)
Module InvariantFacts.
Import WString Filename Datalogger SessionFacts.
Open Scope Z_scope.

Lemma mode_matches_handle_boot : mode_matches_handle boot.
Proof. unfold mode_matches_handle; cbn. split; discriminate. Qed.

Lemma closed_menu (s : State) :
  estado s = 0 -> is_open (logFile s) = false -> mode_matches_handle s.
Proof.
  unfold mode_matches_handle. intros -> ->. split; discriminate.
Qed.

Lemma not_session_closed (s : State) :
  mode_matches_handle s -> estado s <> 4 -> is_open (logFile s) = false.
Proof.
  unfold mode_matches_handle. intros [_ H] Hne.
  destruct (is_open (logFile s)); [now elim Hne; apply H | reflexivity].
Qed.

(** Under the invariant, no session in the sense of pararSesionMedida is
    no session in the sense of iniciarSesionMedida. *)
Lemma Idle_not_Active (s : State) :
  mode_matches_handle s -> (Idle s <-> ~ Active s).
Proof.
  unfold mode_matches_handle, Idle, Active. intros [H1 H2]. split.
  - intros Hne [H4 _]. contradiction.
  - intros Hna H4. apply Hna. split; [exact H4 | now apply H1].
Qed.

(** What a call of iniciarSesionMedida leaves in the mode, the handle and
    the counter, branch by branch. *)
Lemma iniciarSesionMedida_cases (raw origen : string) (e : Env) (s : State) :
  let r := iniciarSesionMedida raw origen e s in
  match fst r with
  | Started =>
      estado (snd r) = 4 /\ is_open (logFile (snd r)) = true /\
      tiempo_s (snd r) = 0 /\ lastLoop (snd r) = millis e
  | StorageUnavailable =>
      estado (snd r) = 0 /\ is_open (logFile (snd r)) = false /\
      tiempo_s (snd r) = tiempo_s s /\ lastLoop (snd r) = lastLoop s
  | InvalidName | AlreadyActive => same_session s (snd r)
  end.
Proof.
  cbn zeta. unfold iniciarSesionMedida.
  destruct (nombreValidoBasico raw); cbn [negb].
  - destruct ((estado s =? 4) && is_open (logFile s)).
    + cbn [fst snd]. apply same_session_logMsg.
    + destruct (sd_ok e); globals; repeat split.
  - cbn [fst snd]. apply same_session_logMsg.
Qed.

Lemma iniciarSesionMedida_preserves (raw origen : string) (e : Env) (s : State) :
  mode_matches_handle s ->
  mode_matches_handle (snd (iniciarSesionMedida raw origen e s)).
Proof.
  intros Hinv. pose proof (iniciarSesionMedida_cases raw origen e s) as H.
  cbn zeta in H. unfold mode_matches_handle in *.
  destruct (fst (iniciarSesionMedida raw origen e s)).
  - destruct H as (-> & -> & _). split; reflexivity.
  - destruct H as (-> & _ & -> & _). exact Hinv.
  - destruct H as (-> & _ & -> & _). exact Hinv.
  - destruct H as (-> & -> & _). split; discriminate.
Qed.

Lemma pararSesionMedida_preserves (origen : string) (s : State) :
  mode_matches_handle s ->
  mode_matches_handle (snd (pararSesionMedida origen s)).
Proof.
  intros Hinv. unfold pararSesionMedida.
  destruct (estado s =? 4) eqn:E4.
  - apply closed_menu; globals; [reflexivity|].
    destruct (is_open (logFile s)) eqn:E; globals; [reflexivity | exact E].
  - exact Hinv.
Qed.

Lemma processWebCommand_preserves (op name : string) (e : Env) (s : State) :
  mode_matches_handle s -> mode_matches_handle (processWebCommand op name e s).
Proof.
  intros Hinv. unfold processWebCommand.
  destruct (String.eqb op "start");
    [now apply iniciarSesionMedida_preserves|].
  destruct (String.eqb op "stop");
    [now apply pararSesionMedida_preserves|].
  destruct (String.eqb op "delete"); [|exact Hinv].
  destruct (length (trim name) =? 0)%nat; [exact Hinv|].
  destruct ((estado s =? 4) && (0 <? length (nombreArchivo s))%nat
            && equalsIgnoreCase (trim name) (nombreArchivo s));
    [exact Hinv|].
  destruct (sd_ok e); exact Hinv.
Qed.

Lemma handleWifiClient_preserves (req : option string) (e : Env) (s : State) :
  mode_matches_handle s -> mode_matches_handle (handleWifiClient req e s).
Proof.
  intros Hinv. unfold handleWifiClient.
  destruct req as [req|]; [|exact Hinv].
  repeat match goal with
         | |- mode_matches_handle (if ?c then _ else _) => destruct c
         end; try exact Hinv.
  now apply (processWebCommand_preserves _ _ e s).
Qed.

Lemma serial_step_preserves (line : option string) (e : Env) (s : State) :
  mode_matches_handle s -> mode_matches_handle (serial_step line e s).
Proof.
  intros Hinv. unfold serial_step.
  destruct line as [raw|]; [|exact Hinv].
  destruct (Z.eqb_spec (estado s) 0) as [E0|_].
  { assert (Hc : is_open (logFile s) = false)
      by (apply not_session_closed; [exact Hinv | lia]).
    repeat match goal with
           | |- mode_matches_handle (if ?c then _ else _) => destruct c
           end;
      unfold mode_matches_handle; globals; rewrite ?Hc, ?E0;
      split; discriminate. }
  destruct (Z.eqb_spec (estado s) 1) as [E1|_].
  { assert (Hc : is_open (logFile s) = false)
      by (apply not_session_closed; [exact Hinv | lia]).
    destruct (String.eqb (trim raw) "back").
    - unfold mode_matches_handle; globals; rewrite Hc; split; discriminate.
    - pose proof (iniciarSesionMedida_cases (trim raw) "SERIAL" e s) as H.
      pose proof (iniciarSesionMedida_preserves (trim raw) "SERIAL" e s Hinv)
        as Hp.
      cbn zeta in H.
      destruct (iniciarSesionMedida (trim raw) "SERIAL" e s) as [r s'].
      cbn [fst snd] in H, Hp.
      destruct r; cbn [start_ok]; [exact Hp | | |];
        unfold mode_matches_handle; globals.
      + destruct H as (_ & _ & -> & _). rewrite Hc. split; discriminate.
      + destruct H as (_ & _ & -> & _). rewrite Hc. split; discriminate.
      + destruct H as (_ & -> & _). split; discriminate. }
  destruct (Z.eqb_spec (estado s) 2) as [E2|_].
  { assert (Hc : is_open (logFile s) = false)
      by (apply not_session_closed; [exact Hinv | lia]).
    destruct (String.eqb (trim raw) "back"); [|destruct (sd_ok e)];
      unfold mode_matches_handle; globals; rewrite ?Hc, ?E2;
      split; discriminate. }
  destruct (Z.eqb_spec (estado s) 3) as [E3|_].
  { assert (Hc : is_open (logFile s) = false)
      by (apply not_session_closed; [exact Hinv | lia]).
    destruct (String.eqb (trim raw) "back").
    - unfold mode_matches_handle; globals; rewrite Hc; split; discriminate.
    - rewrite Hc. cbn [andb]. destruct (sd_ok e);
        unfold mode_matches_handle; globals; rewrite Hc, E3;
        split; discriminate. }
  destruct (Z.eqb_spec (estado s) 4) as [E4|_]; [|exact Hinv].
  destruct (String.eqb (trim raw) "back");
    [now apply pararSesionMedida_preserves | exact Hinv].
Qed.

Lemma logging_step_frame {F : FloatOps} (e : TickEnv) (s : State) :
  estado (logging_step e s) = estado s /\
  logFile (logging_step e s) = logFile s /\
  nombreArchivo (logging_step e s) = nombreArchivo s.
Proof.
  unfold logging_step.
  destruct ((estado s =? 4) && is_open (logFile s)); [|repeat split].
  destruct (PERIODO_LOG_MS <=? wrap32 (ahora e - lastLoop s));
    [|repeat split].
  globals.
  match goal with |- context [if ?c then _ else _] => destruct c end;
    globals; repeat split.
Qed.

Lemma logging_step_preserves {F : FloatOps} (e : TickEnv) (s : State) :
  mode_matches_handle s -> mode_matches_handle (logging_step e s).
Proof.
  unfold mode_matches_handle.
  destruct (logging_step_frame e s) as (-> & -> & _). tauto.
Qed.

Lemma loop_preserves {F : FloatOps} (i : LoopInput) (s : State) :
  mode_matches_handle s -> mode_matches_handle (loop i s).
Proof.
  intros Hinv. unfold loop.
  now apply logging_step_preserves, serial_step_preserves,
    handleWifiClient_preserves.
Qed.

Lemma setup_establishes (e : SetupEnv) (s : State) :
  setup e boot = Some s -> mode_matches_handle s.
Proof.
  unfold setup. destruct (ap_listening e); cbn [negb]; [|discriminate].
  intros [= <-]. apply closed_menu; reflexivity.
Qed.

(** C2: the control mode is SessionActive (estado is 4) exactly when the
    output handle is open.  This holds for the initial globals and after
    setup; session start, session stop, the HTTP command dispatch, the HTTP
    front end, the console dispatch, the sampling step and a whole
    iteration of loop all preserve it; hence it holds in every state the
    sketch reaches. *)
Theorem mode_iff_handle_open {F : FloatOps} :
  mode_matches_handle boot /\
  (forall e s, setup e boot = Some s -> mode_matches_handle s) /\
  (forall s, mode_matches_handle s ->
     (forall raw origen e,
        mode_matches_handle (snd (iniciarSesionMedida raw origen e s))) /\
     (forall origen, mode_matches_handle (snd (pararSesionMedida origen s))) /\
     (forall op name e, mode_matches_handle (processWebCommand op name e s)) /\
     (forall req e, mode_matches_handle (handleWifiClient req e s)) /\
     (forall line e, mode_matches_handle (serial_step line e s)) /\
     (forall e, mode_matches_handle (logging_step e s)) /\
     (forall i, mode_matches_handle (loop i s))) /\
  (forall s, reachable s -> mode_matches_handle s).
Proof.
  split; [apply mode_matches_handle_boot|].
  split; [apply setup_establishes|].
  split.
  - intros s Hinv. repeat split; intros.
    + now apply iniciarSesionMedida_preserves.
    + now apply iniciarSesionMedida_preserves.
    + now apply pararSesionMedida_preserves.
    + now apply pararSesionMedida_preserves.
    + now apply processWebCommand_preserves.
    + now apply processWebCommand_preserves.
    + now apply handleWifiClient_preserves.
    + now apply handleWifiClient_preserves.
    + now apply serial_step_preserves.
    + now apply serial_step_preserves.
    + now apply logging_step_preserves.
    + now apply logging_step_preserves.
    + now apply loop_preserves.
    + now apply loop_preserves.
  - intros s Hr. induction Hr as [e s Hs | i s _ IH].
    + now apply (setup_establishes e).
    + now apply loop_preserves.
Qed.

Lemma mode_iff_handle_open_witness :
  mode_matches_handle (snd (pararSesionMedida "WEB" Scenario.recording)).
Proof.
  assert (H : mode_matches_handle Scenario.recording)
    by (split; reflexivity).
  exact (proj1 (proj2 (proj1 (proj2 (proj2 (@mode_iff_handle_open FixedPoint)))
                         Scenario.recording H)) "WEB").
Defined.

End InvariantFacts.

(** * The sampling step: schedule, counter and record *)
Module SamplingFacts.
Import WString Filename Datalogger SessionFacts InvariantFacts.
Open Scope Z_scope.

Section Step.
Context {F : FloatOps}.

Lemma tick_due_tests (e : TickEnv) (s : State) :
  tick_due e s = true ->
  (estado s =? 4) && is_open (logFile s) = true /\
  (PERIODO_LOG_MS <=? wrap32 (ahora e - lastLoop s)) = true.
Proof. unfold tick_due. intros H. now apply andb_true_iff in H. Qed.

(** A step that is not due does nothing. *)
Lemma logging_step_idle (e : TickEnv) (s : State) :
  tick_due e s = false -> logging_step e s = s.
Proof.
  unfold tick_due, logging_step.
  destruct ((estado s =? 4) && is_open (logFile s)); [|reflexivity].
  cbn [andb]. now intros ->.
Qed.

(** A step that is due: the globals it writes and the calls it makes. *)
Lemma logging_step_due (e : TickEnv) (s : State) :
  tick_due e s = true ->
  let s' := logging_step e s in
  let line := dataString (wrap32 (tiempo_s s + 1)) e in
  lastLoop s' = wrap32 (lastLoop s + PERIODO_LOG_MS) /\
  tiempo_s s' = wrap32 (tiempo_s s + 1) /\
  trace s' = SerialPrintln line :: FilePrintln line (println_ok e) :: trace s.
Proof.
  intros Hdue. destruct (tick_due_tests e s Hdue) as [Hact Hper].
  cbn zeta. unfold logging_step. rewrite Hact, Hper. globals.
  match goal with |- context [if ?c then _ else _] => destruct c end;
    globals; repeat split.
Qed.

Lemma wrap32_lateness (now last : Z) :
  PERIODO_LOG_MS <= wrap32 (now - last) ->
  wrap32 (now - wrap32 (last + PERIODO_LOG_MS))
  = wrap32 (now - last) - PERIODO_LOG_MS.
Proof.
  unfold wrap32. intros H.
  rewrite Zminus_mod_idemp_r.
  replace (now - (last + PERIODO_LOG_MS)) with (now - last - PERIODO_LOG_MS)
    by lia.
  rewrite <- Zminus_mod_idemp_l.
  apply Z.mod_small.
  pose proof (Z.mod_pos_bound (now - last) (2 ^ 32) ltac:(lia)).
  unfold PERIODO_LOG_MS in *. lia.
Qed.

(** C3 (as amended): a sampling step that fires moves the scheduled
    baseline by exactly one period from its previous value, in 32-bit
    unsigned arithmetic, and the new baseline does not depend on the
    current time; however late the check is, two periods or more included,
    it writes exactly one record and counts one sample.  The periods that
    were missed are then made up: the lateness seen by a following check is
    measured from the scheduled time, so that check fires again exactly
    when two periods or more have passed since the previous baseline, and
    does not fire when fewer have.  A step that is not due changes
    nothing. *)
Theorem tick_advances_one_period (e : TickEnv) (s : State) :
  if tick_due e s then
    let s' := logging_step e s in
    lastLoop s' = wrap32 (lastLoop s + PERIODO_LOG_MS) /\
    (0 <= lastLoop s -> lastLoop s + PERIODO_LOG_MS < 2 ^ 32 ->
     lastLoop s' = lastLoop s + PERIODO_LOG_MS) /\
    (forall e2, tick_due e2 s = true ->
                lastLoop (logging_step e2 s) = lastLoop s') /\
    (exists line,
       file_lines (trace s') = (line, println_ok e) :: file_lines (trace s)) /\
    tiempo_s s' = wrap32 (tiempo_s s + 1) /\
    wrap32 (ahora e - lastLoop s')
    = wrap32 (ahora e - lastLoop s) - PERIODO_LOG_MS /\
    (forall e2,
       PERIODO_LOG_MS <= wrap32 (ahora e2 - lastLoop s) ->
       tick_due e2 s'
       = (2 * PERIODO_LOG_MS <=? wrap32 (ahora e2 - lastLoop s)))
  else logging_step e s = s.
Proof.
  destruct (tick_due e s) eqn:Hdue; [|now apply logging_step_idle].
  destruct (logging_step_due e s Hdue) as (HL & HT & Htr). cbn zeta.
  destruct (tick_due_tests e s Hdue) as [Hact Hper].
  split; [exact HL|].
  split.
  { intros H0 Hlt. rewrite HL. unfold wrap32. apply Z.mod_small.
    unfold PERIODO_LOG_MS in *. lia. }
  split.
  { intros e2 H2. destruct (logging_step_due e2 s H2) as (HL2 & _).
    now rewrite HL, HL2. }
  split; [eexists; rewrite Htr; reflexivity|].
  split; [exact HT|].
  split.
  { rewrite HL. apply wrap32_lateness. now apply Z.leb_le. }
  intros e2 H2. unfold tick_due.
  destruct (logging_step_frame e s) as (-> & -> & _).
  rewrite Hact, HL, (wrap32_lateness (ahora e2) (lastLoop s) H2).
  cbn [andb]. unfold PERIODO_LOG_MS in *.
  destruct (Z.leb_spec 1000 (wrap32 (ahora e2 - lastLoop s) - 1000));
    symmetry; [apply Z.leb_le | apply Z.leb_gt]; lia.
Qed.

(** C3 as stated fails on the cadence after a late check: with the baseline
    at 5000, the check at 8200 fires, and so does the very next check one
    millisecond later; two records are written back to back to make up
    for the missed period. *)
Lemma late_check_fires_again :
  let s1 := logging_step (Scenario.tick_at 8200 None true) Scenario.recording in
  let s2 := logging_step (Scenario.tick_at 8201 None true) s1 in
  lastLoop Scenario.recording = 5000 /\
  tick_due (Scenario.tick_at 8200 None true) Scenario.recording = true /\
  tick_due (Scenario.tick_at 8201 None true) s1 = true /\
  List.length (file_lines (trace s2))
  = (List.length (file_lines (trace Scenario.recording)) + 2)%nat /\
  lastLoop s2 = 7000.
Proof. cbn zeta. repeat split; vm_compute; reflexivity. Qed.

Lemma tiempo_s_iniciar (raw origen : string) (e : Env) (s : State) :
  let r := iniciarSesionMedida raw origen e s in
  tiempo_s (snd r) = if start_ok (fst r) then 0 else tiempo_s s.
Proof.
  pose proof (iniciarSesionMedida_cases raw origen e s) as H.
  cbn zeta in *.
  destruct (fst (iniciarSesionMedida raw origen e s)); cbn [start_ok].
  - now destruct H as (_ & _ & -> & _).
  - now destruct H as (_ & _ & _ & _ & -> & _).
  - now destruct H as (_ & _ & _ & _ & -> & _).
  - now destruct H as (_ & _ & -> & _).
Qed.

Lemma tiempo_s_parar (origen : string) (s : State) :
  tiempo_s (snd (pararSesionMedida origen s)) = tiempo_s s.
Proof.
  unfold pararSesionMedida.
  destruct (estado s =? 4); globals; [|reflexivity].
  destruct (is_open (logFile s)); reflexivity.
Qed.

Lemma prefix_split (p : string) :
  forall x, prefix p x = true -> exists q, x = (p ++ q)%string.
Proof.
  induction p as [|c p IH]; intros x H.
  - now exists x.
  - destruct x as [|d x]; [discriminate|]. cbn [prefix] in H.
    destruct (ascii_dec c d) as [->|_]; [|discriminate].
    destruct (IH x H) as [q ->]. now exists q.
Qed.

(** The counter after an HTTP command: zero after a start that succeeds,
    as before otherwise. *)
Lemma tiempo_s_web (op name : string) (e : Env) (s : State) :
  tiempo_s (processWebCommand op name e s)
  = if String.eqb op "start"
       && start_ok (fst (iniciarSesionMedida name "WEB" e s))
    then 0 else tiempo_s s.
Proof.
  unfold processWebCommand.
  destruct (String.eqb op "start"); cbn [andb];
    [apply tiempo_s_iniciar|].
  destruct (String.eqb op "stop"); [apply tiempo_s_parar|].
  repeat match goal with
         | |- context [if ?c then _ else _] => destruct c
         end; reflexivity.
Qed.

(** The counter after one request: only a request routed to /cmd reaches
    processWebCommand. *)
Lemma tiempo_s_http (req : option string) (e : Env) (s : State) :
  tiempo_s (handleWifiClient req e s)
  = match req with
    | None => tiempo_s s
    | Some r =>
        let path := request_path r in
        let query := substring1 path (indexOfChar path "?" 0 + 1) in
        if startsWith path "/cmd?"
        then tiempo_s (processWebCommand (query_value query "op=")
                         (query_value query "name=") e s)
        else tiempo_s s
    end.
Proof.
  unfold handleWifiClient. destruct req as [r|]; [|reflexivity]. cbn zeta.
  destruct (startsWith (request_path r) "/cmd?") eqn:Hcmd.
  - destruct (prefix_split "/cmd?" (request_path r) Hcmd) as [q Hq].
    rewrite Hq.
    change (("/cmd?" ++ q =? "/")%string) with false.
    change (("/cmd?" ++ q =? "/log")%string) with false.
    change (("/cmd?" ++ q =? "/last")%string) with false.
    change (startsWith ("/cmd?" ++ q) "/download?name=") with false.
    rewrite <- Hq. reflexivity.
  - repeat match goal with
           | |- context [if ?c then _ else _] => destruct c
           end; reflexivity.
Qed.

(** The counter after one console line: only a label given in the mode
    that awaits one reaches iniciarSesionMedida. *)
Lemma tiempo_s_serial (line : option string) (e : Env) (s : State) :
  tiempo_s (serial_step line e s)
  = match line with
    | None => tiempo_s s
    | Some raw =>
        if (estado s =? 1) && negb (String.eqb (trim raw) "back")
           && start_ok (fst (iniciarSesionMedida (trim raw) "SERIAL" e s))
        then 0 else tiempo_s s
    end.
Proof.
  unfold serial_step. destruct line as [raw|]; [|reflexivity].
  destruct (Z.eqb_spec (estado s) 0) as [E0|N0].
  { rewrite E0. cbn [Z.eqb andb].
    repeat match goal with
           | |- context [if ?c then _ else _] => destruct c
           end; reflexivity. }
  destruct (estado s =? 1); cbn [andb].
  { destruct (String.eqb (trim raw) "back"); cbn [negb andb];
      [reflexivity|].
    pose proof (tiempo_s_iniciar (trim raw) "SERIAL" e s) as Ht.
    cbn zeta in Ht.
    destruct (iniciarSesionMedida (trim raw) "SERIAL" e s) as [r s'].
    cbn [fst snd] in *.
    destruct (start_ok r); [exact Ht | globals; exact Ht]. }
  repeat match goal with
         | |- context [if ?c then _ else _] => destruct c
         end; try reflexivity; apply tiempo_s_parar.
Qed.

(** C6 (as amended): the sample counter is set to zero by setup and by a
    start that succeeds, and a start that fails leaves it as it is; a stop
    leaves it as it is; an HTTP command, the HTTP front end and the console
    leave it as it is in every case but one, the start that succeeds (an
    HTTP command start, a request routed to /cmd, a label given in the
    console mode that awaits one), which sets it to zero; a sampling step
    that is not due leaves it as it is, and one that fires adds exactly one
    (modulo 2^32, so below the top value the counter grows by one), before
    the record is written and whether or not the write goes through. *)
Theorem counter_updates :
  (forall e s', setup e boot = Some s' -> tiempo_s s' = 0) /\
  (forall raw origen e s,
     let r := iniciarSesionMedida raw origen e s in
     tiempo_s (snd r) = if start_ok (fst r) then 0 else tiempo_s s) /\
  (forall origen s, tiempo_s (snd (pararSesionMedida origen s)) = tiempo_s s) /\
  (forall op name e s,
     tiempo_s (processWebCommand op name e s)
     = if String.eqb op "start"
          && start_ok (fst (iniciarSesionMedida name "WEB" e s))
       then 0 else tiempo_s s) /\
  (forall req e s,
     tiempo_s (handleWifiClient req e s)
     = match req with
       | None => tiempo_s s
       | Some r =>
           let path := request_path r in
           let query := substring1 path (indexOfChar path "?" 0 + 1) in
           if startsWith path "/cmd?"
           then tiempo_s (processWebCommand (query_value query "op=")
                            (query_value query "name=") e s)
           else tiempo_s s
       end) /\
  (forall line e s,
     tiempo_s (serial_step line e s)
     = match line with
       | None => tiempo_s s
       | Some raw =>
           if (estado s =? 1) && negb (String.eqb (trim raw) "back")
              && start_ok (fst (iniciarSesionMedida (trim raw) "SERIAL" e s))
           then 0 else tiempo_s s
       end) /\
  (forall e s,
     tiempo_s (logging_step e s)
     = if tick_due e s then wrap32 (tiempo_s s + 1) else tiempo_s s) /\
  (forall e s,
     tick_due e s = true -> 0 <= tiempo_s s < 2 ^ 32 - 1 ->
     tiempo_s (logging_step e s) = tiempo_s s + 1).
Proof.
  assert (Hstep : forall e s,
             tiempo_s (logging_step e s)
             = if tick_due e s then wrap32 (tiempo_s s + 1) else tiempo_s s).
  { intros e s. destruct (tick_due e s) eqn:Hdue.
    - now destruct (logging_step_due e s Hdue) as (_ & -> & _).
    - now rewrite logging_step_idle. }
  split.
  { intros e s'. unfold setup.
    destruct (ap_listening e); cbn [negb]; [|discriminate].
    now intros [= <-]. }
  split; [exact tiempo_s_iniciar|].
  split; [exact tiempo_s_parar|].
  split; [exact tiempo_s_web|].
  split; [exact tiempo_s_http|].
  split; [exact tiempo_s_serial|].
  split; [exact Hstep|].
  intros e s Hdue Hrange. rewrite Hstep, Hdue.
  unfold wrap32. apply Z.mod_small. lia.
Qed.

(** C6 as stated fails on a write that does not go through: the record is
    handed to the file with a failing write, and the counter has moved from
    0 to 1 all the same. *)
Lemma counter_incremented_on_failed_write :
  let e := Scenario.tick_at 6000 (Some Scenario.pzem_a) false in
  let s' := logging_step e Scenario.recording in
  tiempo_s Scenario.recording = 0 /\
  (exists line, file_lines (trace s')
                = (line, false) :: file_lines (trace Scenario.recording)) /\
  tiempo_s s' = 1.
Proof.
  cbn zeta. split; [reflexivity|]. split; [|reflexivity].
  eexists. vm_compute. reflexivity.
Qed.

(** C7: when the energy-meter read fails on a sampling step that fires,
    the record is still built, written to the file and echoed.  Its first
    nine fields are the counter and the values computed from the two INA226
    readings, written out below from the readings themselves, and its last
    six are the sentinel -1 printed at 3, 3, 3, 3, 2 and 3 decimals, which
    on a platform that prints -1 as expected read -1.000, -1.000, -1.000,
    -1.000, -1.00, -1.000.  A step with the same INA226 readings whose
    energy-meter read succeeds writes the same first nine fields, followed
    by the six values read. *)
Theorem pzem_failure_record (e : TickEnv) (s : State) :
  tick_due e s = true ->
  pzem_readAll e = None ->
  let t := wrap32 (tiempo_s s + 1) in
  let four := float_of_int 4 in
  let minus_one := float_of_int (-1) in
  let measured (r1 r2 : InaReading) : list string :=
    [ String_ulong t;
      String_float (fsub (fmul (getBusVoltage r1) four)
                         (fmul (getCurrent r1) R_EQ)) 4;
      String_float (getShuntVoltage r1) 6;
      String_float (getCurrent r1) 6;
      String_float (fmul (getPower r1) four) 4;
      String_float (fmul (fsub (getBusVoltage r2) (fmul (getCurrent r2) R_EQ))
                         corrector_offset) 4;
      String_float (getShuntVoltage r2) 6;
      String_float (getCurrent r2) 6;
      String_float (getPower r2) 4 ] in
  let line :=
    String.concat ","
      (measured (ina1 e) (ina2 e)
       ++ [ String_float minus_one 3; String_float minus_one 3;
            String_float minus_one 3; String_float minus_one 3;
            String_float minus_one 2; String_float minus_one 3 ])%list in
  trace (logging_step e s)
  = SerialPrintln line :: FilePrintln line (println_ok e) :: trace s /\
  (prints_minus_one F ->
   line = String.concat ","
            (measured (ina1 e) (ina2 e)
             ++ [ "-1.000"; "-1.000"; "-1.000"; "-1.000"; "-1.00";
                  "-1.000" ]%string)%list) /\
  (forall e2 p,
     tick_due e2 s = true -> pzem_readAll e2 = Some p ->
     file_lines (trace (logging_step e2 s))
     = (String.concat ","
          (measured (ina1 e2) (ina2 e2)
           ++ [ String_float (voltaje p) 3; String_float (corriente p) 3;
                String_float (potencia p) 3; String_float (energia p) 3;
                String_float (frecuencia p) 2; String_float (pf p) 3 ])%list,
        println_ok e2) :: file_lines (trace s)).
Proof.
  intros Hdue Hnone. cbn zeta. split; [|split].
  - destruct (logging_step_due e s Hdue) as (_ & _ & ->).
    unfold dataString, record_fields, pzem_fields, pzem_values.
    rewrite Hnone. reflexivity.
  - intros [H3 H2]. now rewrite H3, H2.
  - intros e2 p Hdue2 Hp.
    destruct (logging_step_due e2 s Hdue2) as (_ & _ & ->).
    unfold dataString, record_fields, pzem_fields, pzem_values.
    rewrite Hp. reflexivity.
Qed.

End Step.

(** The scenario of the specification: a session on 2025-01-14, three
    sampling steps one period apart, then stop.  The file received the
    header and three records counted 1, 2, 3, and was closed. *)
Example three_samples_then_stop :
  let s1 := logging_step (Scenario.tick_at 6000 None true) Scenario.recording in
  let s2 := logging_step (Scenario.tick_at 7000 None true) s1 in
  let s3 := logging_step (Scenario.tick_at 8000 None true) s2 in
  let s4 := snd (pararSesionMedida "WEB" s3) in
  nombreArchivo s4 = "2025_01_.CSV"%string /\
  List.length (file_lines (trace s4)) = 4%nat /\
  (tiempo_s s1, tiempo_s s2, tiempo_s s3) = (1, 2, 3) /\
  lastLoop s3 = 8000 /\ estado s4 = 0 /\ logFile s4 = None.
Proof. cbn zeta. repeat split; vm_compute; reflexivity. Qed.

Lemma tick_advances_one_period_witness :
  let e := Scenario.tick_at 7500 None true in
  lastLoop Scenario.recording = 5000 /\
  lastLoop (logging_step e Scenario.recording) = 6000.
Proof.
  cbn zeta. split; [reflexivity|].
  pose proof (tick_advances_one_period
                (Scenario.tick_at 7500 None true) Scenario.recording) as H.
  change (tick_due (Scenario.tick_at 7500 None true) Scenario.recording)
    with true in H.
  cbn zeta in H. destruct H as (_ & H & _).
  apply H; vm_compute; [discriminate | reflexivity].
Defined.

Lemma counter_updates_witness :
  tiempo_s (logging_step (Scenario.tick_at 6000 None false) Scenario.recording)
  = tiempo_s Scenario.recording + 1.
Proof.
  apply (proj2 (proj2 (proj2 (proj2 (proj2 (proj2 (proj2
           (@counter_updates FixedPoint)))))))).
  - reflexivity.
  - vm_compute. split; [discriminate | reflexivity].
Defined.

Lemma pzem_failure_record_witness :
  file_lines (trace (logging_step (Scenario.tick_at 6000 None true)
                       Scenario.recording))
  = [ ("1,11.9480,0.001500,2.000000,24.0000,12.3091,0.000800,1.100000,13.7500,-1.000,-1.000,-1.000,-1.000,-1.00,-1.000"%string,
       true);
      (CSV_HEADER, true) ].
Proof.
  pose proof (pzem_failure_record (Scenario.tick_at 6000 None true)
                Scenario.recording eq_refl eq_refl) as H.
  cbn zeta in H. destruct H as (H & _). rewrite H. reflexivity.
Defined.

End SamplingFacts.

(** * Deleting files from the two control surfaces *)
Module DeleteFacts.
Import WString Filename Datalogger WStringFacts SessionFacts InvariantFacts.
Open Scope Z_scope.

Lemma length_zero_empty (s : string) : (length s =? 0)%nat = true <-> s = EmptyString.
Proof.
  destruct s; cbn; split; try reflexivity; discriminate.
Qed.

(** The delete branch of processWebCommand. *)
Lemma processWebCommand_delete (name : string) (e : Env) (s : State) :
  processWebCommand "delete" name e s =
    let fname := trim name in
    if (length fname =? 0)%nat then s
    else if (estado s =? 4) && (0 <? length (nombreArchivo s))%nat
            && equalsIgnoreCase fname (nombreArchivo s) then
      logMsg ("WEB: No se puede borrar el archivo en uso (" ++ nombreArchivo s
              ++ "). Para la sesión primero.") s
    else
      let s := logMsg ("WEB: Borrando " ++ fname) s in
      let s := emit (SdRemove fname (sd_ok e)) s in
      if sd_ok e then logMsg "WEB: Borrado OK" s
      else logMsg "WEB: Error al borrar" s.
Proof. reflexivity. Qed.

(** The delete mode of the console on a line other than back. *)
Lemma serial_step_delete (line : string) (e : Env) (s : State) :
  estado s = 3 -> trim line <> "back"%string ->
  serial_step (Some line) e s =
    let entrada := trim line in
    let s :=
      if is_open (logFile s) && (0 <? length (nombreArchivo s))%nat
         && equalsIgnoreCase entrada (nombreArchivo s) then
        logMsg "ERROR: No puedes borrar el archivo en uso. Para la sesión primero." s
      else
        let s := emit (SdRemove entrada (sd_ok e)) s in
        if sd_ok e then logMsg ("Archivo borrado: " ++ entrada) s
        else logMsg ("ERROR: no se pudo borrar el archivo: " ++ entrada) s in
    logMsg "Escribe 'back' para volver al menú o el nombre de otro archivo para borrar." s.
Proof.
  intros E3 Hback. unfold serial_step. rewrite E3.
  cbn [Z.eqb Pos.eqb].
  destruct (String.eqb_spec (trim line) "back"); [contradiction|reflexivity].
Qed.

Lemma nonempty_match (a b : string) :
  a <> EmptyString -> equalsIgnoreCase a b = true ->
  (0 <? length b)%nat = true.
Proof.
  intros Ha Heq. apply equalsIgnoreCase_length in Heq.
  destruct a; [contradiction|]. destruct b; [discriminate|reflexivity].
Qed.

(** C8 (as amended).  On the HTTP surface the target is the trimmed name:
    while a session is active, a target equal to its file name up to case
    is refused, which calls no storage operation and changes no session or
    control variable; a name that is empty once trimmed is ignored, with
    no effect at all; every other target is passed to SD.remove.  On the
    console in delete mode the target is the trimmed line: the same check
    is made against the open handle, and every other line except back is
    passed to SD.remove; since delete mode excludes an open handle, in the
    states the sketch reaches every such line is passed to SD.remove. *)
Theorem delete_refused_or_removed (s : State) (e : Env) (name : string) :
  let fname := trim name in
  let w := processWebCommand "delete" name e s in
  let c := serial_step (Some name) e s in
  (Active s -> equalsIgnoreCase fname (nombreArchivo s) = true ->
   removals (trace w) = removals (trace s) /\
   file_lines (trace w) = file_lines (trace s) /\ same_session s w) /\
  (fname = EmptyString -> w = s) /\
  (mode_matches_handle s -> fname <> EmptyString ->
   ~ (Active s /\ equalsIgnoreCase fname (nombreArchivo s) = true) ->
   removals (trace w) = fname :: removals (trace s) /\ same_session s w) /\
  (estado s = 3 -> fname <> "back"%string ->
   is_open (logFile s) = true -> nombreArchivo s <> EmptyString ->
   equalsIgnoreCase fname (nombreArchivo s) = true ->
   removals (trace c) = removals (trace s) /\ same_session s c) /\
  (estado s = 3 -> fname <> "back"%string ->
   ~ (is_open (logFile s) = true /\ nombreArchivo s <> EmptyString /\
      equalsIgnoreCase fname (nombreArchivo s) = true) ->
   removals (trace c) = fname :: removals (trace s) /\ same_session s c) /\
  (estado s = 3 -> fname <> "back"%string -> mode_matches_handle s ->
   removals (trace c) = fname :: removals (trace s) /\ same_session s c).
Proof.
  cbn zeta. rewrite processWebCommand_delete. cbn zeta.
  assert (Hconsole :
    estado s = 3 -> trim name <> "back"%string ->
    is_open (logFile s) && (0 <? length (nombreArchivo s))%nat
      && equalsIgnoreCase (trim name) (nombreArchivo s) = false ->
    removals (trace (serial_step (Some name) e s))
      = trim name :: removals (trace s) /\
    same_session s (serial_step (Some name) e s)).
  { intros E3 Hback Hc. rewrite (serial_step_delete name e s E3 Hback).
    cbn zeta. rewrite Hc. unfold same_session.
    destruct (sd_ok e); globals; repeat split. }
  repeat apply conj.
  - intros Hact Heq. destruct (Active_tests s Hact) as [H4 _].
    destruct (length (trim name) =? 0)%nat eqn:El.
    + repeat split.
    + assert (Hne : trim name <> EmptyString).
      { intros Hem. apply length_zero_empty in Hem. congruence. }
      rewrite H4, (nonempty_match _ _ Hne Heq), Heq. cbn [andb].
      split; [reflexivity|]. split; [reflexivity|].
      apply same_session_logMsg.
  - intros ->. reflexivity.
  - intros Hinv Hne Hnot.
    destruct (length (trim name) =? 0)%nat eqn:El;
      [now apply length_zero_empty in El|].
    destruct ((estado s =? 4) && (0 <? length (nombreArchivo s))%nat
              && equalsIgnoreCase (trim name) (nombreArchivo s)) eqn:Ec.
    + exfalso. apply Hnot.
      apply andb_true_iff in Ec as [Ec Heq].
      apply andb_true_iff in Ec as [E4 _]. apply Z.eqb_eq in E4.
      split; [split; [exact E4 | now apply Hinv] | exact Heq].
    + unfold same_session. destruct (sd_ok e); globals; repeat split.
  - intros E3 Hback Hopen Hname Heq.
    rewrite (serial_step_delete name e s E3 Hback). cbn zeta.
    assert (Hl : (0 <? length (nombreArchivo s))%nat = true)
      by (destruct (nombreArchivo s); [contradiction | reflexivity]).
    rewrite Hopen, Hl, Heq. cbn [andb]. unfold same_session. globals.
    repeat split.
  - intros E3 Hback Hnot. apply Hconsole; [exact E3 | exact Hback |].
    destruct (is_open (logFile s)) eqn:Eo; [|reflexivity].
    destruct (0 <? length (nombreArchivo s))%nat eqn:Hl; [|reflexivity].
    destruct (equalsIgnoreCase (trim name) (nombreArchivo s)) eqn:Heq;
      [|reflexivity].
    exfalso. apply Hnot. repeat split.
    intros Hem. rewrite Hem in Hl. discriminate.
  - intros E3 Hback Hinv. apply Hconsole; [exact E3 | exact Hback |].
    rewrite (not_session_closed s Hinv); [reflexivity | lia].
Qed.

Lemma delete_refused_or_removed_witness :
  removals (trace (processWebCommand "delete" " 2025_01_.csv "
                     Scenario.env_ok Scenario.recording)) = [] /\
  removals (trace (processWebCommand "delete" "OLD.CSV"
                     Scenario.env_ok Scenario.recording)) = ["OLD.CSV"%string] /\
  removals (trace (serial_step (Some "2025_01_.CSV") Scenario.env_ok
                     Scenario.delete_mode_with_handle)) = [].
Proof.
  assert (Hinv : mode_matches_handle Scenario.recording)
    by (split; reflexivity).
  assert (Hact : Active Scenario.recording) by (split; reflexivity).
  split; [|split].
  - apply (proj1 (delete_refused_or_removed Scenario.recording
                    Scenario.env_ok " 2025_01_.csv ")); [exact Hact|].
    reflexivity.
  - apply (proj1 (proj2 (proj2 (delete_refused_or_removed Scenario.recording
                                  Scenario.env_ok "OLD.CSV")))
             Hinv).
    + discriminate.
    + intros [_ H]. discriminate H.
  - apply (proj1 (proj2 (proj2 (proj2 (delete_refused_or_removed
             Scenario.delete_mode_with_handle Scenario.env_ok
             "2025_01_.CSV"))))).
    + reflexivity.
    + discriminate.
    + reflexivity.
    + discriminate.
    + reflexivity.
Defined.

(** C8 as stated fails on the HTTP surface for an empty name: it is not the
    file of the active session, yet no remove is called on it; the request
    is answered and has no other effect. *)
Lemma web_delete_empty_name_ignored :
  Active Scenario.recording /\
  equalsIgnoreCase (trim "") (nombreArchivo Scenario.recording) = false /\
  processWebCommand "delete" "" Scenario.env_ok Scenario.recording
  = Scenario.recording /\
  trace (handleWifiClient (Some "GET /cmd?op=delete&name= HTTP/1.1")
           Scenario.env_ok Scenario.recording)
  = Http CmdOK :: trace Scenario.recording.
Proof. split; [split|split; [|split]]; reflexivity. Qed.

End DeleteFacts.

(** * Invariants of a run *)
Module RunFacts.
Import WString Filename Datalogger Protocol WStringFacts FilenameFacts
  SessionFacts InvariantFacts SamplingFacts.
Open Scope Z_scope.

Lemma length_substring_le (n m : nat) (s : string) :
  (length (substring n m s) <= m)%nat.
Proof.
  revert n m; induction s as [|c s IH]; intros [|n] [|m]; cbn; try lia.
  - specialize (IH 0%nat m). lia.
  - apply (IH n 0%nat).
  - apply (IH n (S m)).
Qed.

Lemma keep_last_bound (c : string) :
  Z.of_nat (length (keep_last c)) <= MAX_LEN.
Proof.
  unfold keep_last. destruct (Z.ltb_spec MAX_LEN (Z.of_nat (length c))).
  - pose proof (length_substring_le (length c - Z.to_nat MAX_LEN)
                  (Z.to_nat MAX_LEN) c).
    unfold MAX_LEN in *. lia.
  - exact H.
Qed.

Lemma handle_after_quiet (ev : Event) (t : list Event) :
  quiet ev = true -> handle_after (ev :: t) = handle_after t.
Proof.
  intros Hq. cbn [handle_after]. destruct (handle_after t); [|reflexivity].
  destruct ev; try discriminate; reflexivity.
Qed.

Lemma session_lines_quiet (ev : Event) (t : list Event) :
  quiet ev = true -> session_lines (ev :: t) = session_lines t.
Proof. destruct ev; try discriminate; reflexivity. Qed.

Section Run.
Context {F : FloatOps}.

(** Reading the replay of a trace after logMsg, mostrarMenu and the like. *)
Ltac replay :=
  globals;
  repeat rewrite handle_after_quiet by reflexivity;
  repeat rewrite session_lines_quiet by reflexivity.

(** A step that leaves the handle, the file name and the counter alone,
    keeps the mode within range and the console within bound, and makes
    only quiet calls. *)
Lemma Sound_quiet (s s' : State) :
  Sound s ->
  0 <= estado s' <= 4 ->
  Z.of_nat (length (consola s')) <= MAX_LEN ->
  logFile s' = logFile s -> nombreArchivo s' = nombreArchivo s ->
  tiempo_s s' = tiempo_s s ->
  handle_after (trace s') = handle_after (trace s) ->
  session_lines (trace s') = session_lines (trace s) ->
  Sound s'.
Proof.
  intros (H1 & H2 & H3 & H4 & H5) E C Hf Hn Ht Hh Hs.
  unfold Sound. rewrite Hf, Hn, Ht, Hh, Hs.
  split; [exact E|]. split; [exact C|]. split; [exact H3|].
  split; [exact H4 | exact H5].
Qed.

Lemma consola_logMsg (msg : string) (s : State) :
  Z.of_nat (length (consola (logMsg msg s))) <= MAX_LEN.
Proof. globals. apply keep_last_bound. Qed.

Ltac quiet_step H :=
  apply (Sound_quiet _ _ H);
  first [ reflexivity | apply H | apply consola_logMsg | exact H
        | now replay
        | globals; now apply handle_after_quiet
        | globals; now apply session_lines_quiet
        | idtac ].

Lemma Sound_logMsg (msg : string) (s : State) : Sound s -> Sound (logMsg msg s).
Proof. intros H. quiet_step H. Qed.

Lemma Sound_emit_quiet (ev : Event) (s : State) :
  quiet ev = true -> Sound s -> Sound (emit ev s).
Proof. intros Hq H. quiet_step H. Qed.

Lemma Sound_mostrarMenu (s : State) : Sound s -> Sound (mostrarMenu s).
Proof. intros H. quiet_step H. Qed.

(** Changing the mode within its range. *)
Lemma Sound_set_estado (v : Z) (s : State) :
  0 <= v <= 4 -> Sound s -> Sound (set_estado v s).
Proof. intros Hv H. quiet_step H. Qed.

Lemma closed_unless_active (s : State) :
  mode_matches_handle s ->
  (estado s =? 4) && is_open (logFile s) = false -> logFile s = None.
Proof.
  intros Hinv Hc. destruct (logFile s) as [f|] eqn:Ef; [|reflexivity].
  assert (E4 : estado s = 4) by (apply Hinv; now rewrite Ef).
  rewrite E4 in Hc. discriminate.
Qed.

Lemma wrap32_succ (z : Z) : wrap32 (wrap32 z + 1) = wrap32 (z + 1).
Proof. unfold wrap32. now rewrite Zplus_mod_idemp_l. Qed.

Lemma numbered_app (t : Z) (a b : list TickEnv) :
  numbered t (a ++ b) = (numbered t a ++ numbered (t + Z.of_nat (List.length a)) b)%list.
Proof.
  revert t; induction a as [|e a IH]; intros t; cbn [numbered List.length app].
  - now rewrite Z.add_0_r.
  - rewrite IH.
    replace (t + Z.of_nat (S (List.length a)))
      with (t + 1 + Z.of_nat (List.length a)) by lia.
    reflexivity.
Qed.

Lemma Sound_iniciarSesionMedida (raw origen : string) (e : Env) (s : State) :
  mode_matches_handle s -> Sound s ->
  Sound (snd (iniciarSesionMedida raw origen e s)).
Proof.
  intros Hinv H. unfold iniciarSesionMedida.
  destruct (nombreValidoBasico raw); cbn [negb];
    [|now apply Sound_logMsg].
  destruct ((estado s =? 4) && is_open (logFile s)) eqn:Hc;
    [now apply Sound_logMsg|].
  pose proof (closed_unless_active s Hinv Hc) as Hclosed.
  destruct H as (H1 & H2 & H3 & H4 & H5). rewrite Hclosed in H4.
  destruct (sd_ok e); globals; unfold Sound; globals.
  - split; [lia|]. split; [apply keep_last_bound|].
    split; [intros f [= <-]; split;
            [reflexivity | apply buildCsvFilenameFromBase_matches]|].
    split.
    + cbn [handle_after]. rewrite H4. reflexivity.
    + intros _. exists [], (write_ok e). split; reflexivity.
  - split; [lia|]. split; [apply keep_last_bound|].
    split; [discriminate|]. split; [|discriminate].
    cbn [handle_after]. rewrite H4. reflexivity.
Qed.

Lemma Sound_pararSesionMedida (origen : string) (s : State) :
  mode_matches_handle s -> Sound s ->
  Sound (snd (pararSesionMedida origen s)).
Proof.
  intros Hinv H. unfold pararSesionMedida.
  destruct (Z.eqb_spec (estado s) 4) as [E4|_]; [|now apply Sound_logMsg].
  assert (Hopen : is_open (logFile s) = true) by now apply Hinv.
  destruct H as (H1 & H2 & H3 & H4 & H5).
  globals. rewrite Hopen. unfold Sound. globals.
  split; [lia|]. split; [apply keep_last_bound|].
  split; [discriminate|]. split; [|discriminate].
  replay. cbn [handle_after]. rewrite H4. cbn [handle_step].
  now rewrite Hopen.
Qed.

Lemma Sound_remove (fname : string) (ok : bool) (s : State) :
  Sound s ->
  (forall f, logFile s = Some f -> equalsIgnoreCase fname f = false) ->
  Sound (emit (SdRemove fname ok) s).
Proof.
  intros H Hne. apply (Sound_quiet _ _ H); try reflexivity; try apply H.
  globals. cbn [handle_after].
  destruct H as (_ & _ & _ & -> & _). cbn [handle_step].
  destruct (logFile s) as [f|] eqn:Ef; [|reflexivity].
  now rewrite (Hne f eq_refl).
Qed.

Lemma csv_name_nonempty (stem : string) :
  (0 <? length (stem ++ ".CSV"))%nat = true.
Proof. rewrite length_app. apply Nat.ltb_lt. cbn. lia. Qed.

Lemma Sound_processWebCommand (op name : string) (e : Env) (s : State) :
  mode_matches_handle s -> Sound s -> Sound (processWebCommand op name e s).
Proof.
  intros Hinv H. unfold processWebCommand.
  destruct (String.eqb op "start"); [now apply Sound_iniciarSesionMedida|].
  destruct (String.eqb op "stop"); [now apply Sound_pararSesionMedida|].
  destruct (String.eqb op "delete"); [|now apply Sound_logMsg].
  destruct (length (trim name) =? 0)%nat eqn:El; [exact H|].
  destruct ((estado s =? 4) && (0 <? length (nombreArchivo s))%nat
            && equalsIgnoreCase (trim name) (nombreArchivo s)) eqn:Hc;
    [now apply Sound_logMsg|].
  assert (Hrm : Sound (emit (SdRemove (trim name) (sd_ok e))
                         (logMsg ("WEB: Borrando " ++ trim name) s))).
  { apply Sound_remove; [now apply Sound_logMsg|].
    globals. intros f Ef.
    destruct H as (_ & _ & H3 & _). destruct (H3 f Ef) as [Hn [stem [-> _]]].
    assert (E4 : (estado s =? 4) = true)
      by (apply Z.eqb_eq, Hinv; now rewrite Ef).
    rewrite E4, Hn, csv_name_nonempty in Hc. exact Hc. }
  destruct (sd_ok e); now apply Sound_logMsg.
Qed.

Lemma Sound_handleWifiClient (req : option string) (e : Env) (s : State) :
  mode_matches_handle s -> Sound s -> Sound (handleWifiClient req e s).
Proof.
  intros Hinv H. unfold handleWifiClient.
  destruct req as [req|]; [|exact H].
  repeat match goal with
         | |- Sound (if ?c then _ else _) => destruct c
         end;
    repeat (apply Sound_emit_quiet; [reflexivity|]); try exact H.
  now apply Sound_processWebCommand.
Qed.

Lemma Sound_serial_step (line : option string) (e : Env) (s : State) :
  mode_matches_handle s -> Sound s -> Sound (serial_step line e s).
Proof.
  intros Hinv H. unfold serial_step.
  destruct line as [raw|]; [|exact H].
  destruct (estado s =? 0).
  { repeat match goal with
           | |- Sound (if ?c then _ else _) => destruct c
           end;
      repeat first [ apply Sound_set_estado; [lia|]
                   | apply Sound_emit_quiet; [reflexivity|]
                   | apply Sound_logMsg ]; exact H. }
  destruct (estado s =? 1).
  { destruct (String.eqb (trim raw) "back").
    - apply Sound_mostrarMenu, Sound_set_estado; [lia | exact H].
    - pose proof (Sound_iniciarSesionMedida (trim raw) "SERIAL" e s Hinv H)
        as Hs.
      pose proof (iniciarSesionMedida_cases (trim raw) "SERIAL" e s) as Hc.
      cbn zeta in Hc.
      destruct (iniciarSesionMedida (trim raw) "SERIAL" e s) as [r s'].
      cbn [fst snd] in *.
      destruct (start_ok r); [exact Hs|].
      apply Sound_mostrarMenu, Sound_set_estado; [lia | exact Hs]. }
  destruct (estado s =? 2).
  { repeat match goal with
           | |- Sound (if ?c then _ else _) => destruct c
           | |- Sound (logMsg _ (if ?c then _ else _)) => destruct c
           end;
      repeat first [ apply Sound_mostrarMenu
                   | apply Sound_set_estado; [lia|]
                   | apply Sound_emit_quiet; [reflexivity|]
                   | apply Sound_logMsg ]; exact H. }
  destruct (estado s =? 3).
  { destruct (String.eqb (trim raw) "back").
    - apply Sound_mostrarMenu, Sound_set_estado; [lia | exact H].
    - apply Sound_logMsg.
      destruct (is_open (logFile s) && (0 <? length (nombreArchivo s))%nat
                && equalsIgnoreCase (trim raw) (nombreArchivo s)) eqn:Hc;
        [now apply Sound_logMsg|].
      assert (Hrm : Sound (emit (SdRemove (trim raw) (sd_ok e)) s)).
      { apply Sound_remove; [exact H|]. intros f Ef.
        destruct H as (_ & _ & H3 & _).
        destruct (H3 f Ef) as [Hn [stem [-> _]]].
        rewrite Ef, Hn, csv_name_nonempty in Hc. exact Hc. }
      destruct (sd_ok e); now apply Sound_logMsg. }
  destruct (estado s =? 4); [|exact H].
  destruct (String.eqb (trim raw) "back");
    [now apply Sound_pararSesionMedida | now apply Sound_logMsg].
Qed.

Lemma Sound_logging_step (e : TickEnv) (s : State) :
  Sound s -> Sound (logging_step e s).
Proof.
  intros H. destruct (tick_due e s) eqn:Hdue;
    [|now rewrite logging_step_idle].
  destruct (tick_due_tests e s Hdue) as [Hact Hper].
  apply andb_true_iff in Hact as [E4 Hopen].
  destruct (logging_step_due e s Hdue) as (_ & HT & Htr).
  destruct (logging_step_frame e s) as (He & Hf & Hn).
  assert (Hcons : consola (logging_step e s) = consola s).
  { unfold logging_step. rewrite E4, Hopen, Hper. cbn [andb]. globals.
    match goal with |- context [if ?c then _ else _] => destruct c end;
      reflexivity. }
  destruct H as (H1 & H2 & H3 & H4 & H5).
  unfold Sound. rewrite He, Hf, Hn, HT, Htr, Hcons.
  split; [exact H1|]. split; [exact H2|]. split; [exact H3|].
  split.
  - rewrite handle_after_quiet by reflexivity.
    cbn [handle_after]. rewrite H4. cbn [handle_step]. now rewrite Hopen.
  - intros _. destruct (H5 Hopen) as (es & okh & Hl & Ht).
    exists (es ++ [e])%list, okh. split.
    + rewrite session_lines_quiet by reflexivity.
      cbn [session_lines]. rewrite Hl, numbered_app, rev_app_distr.
      cbn [numbered rev app]. rewrite Ht, wrap32_succ, Z.add_0_l.
      reflexivity.
    + rewrite Ht, wrap32_succ, List.length_app. cbn [List.length].
      f_equal. lia.
Qed.

Lemma Sound_loop (i : LoopInput) (s : State) :
  mode_matches_handle s -> Sound s -> Sound (loop i s).
Proof.
  intros Hinv H. unfold loop.
  apply Sound_logging_step, Sound_serial_step.
  - now apply handleWifiClient_preserves.
  - now apply Sound_handleWifiClient.
Qed.

Lemma Sound_boot : Sound boot.
Proof.
  unfold Sound; cbn. repeat split; try lia; try discriminate.
Qed.

Lemma Sound_setup (e : SetupEnv) (s : State) :
  setup e boot = Some s -> Sound s.
Proof.
  unfold setup. destruct (ap_listening e); cbn [negb]; [|discriminate].
  intros [= <-]. unfold Sound, boot. globals.
  split; [lia|]. split; [apply keep_last_bound|].
  split; [discriminate|]. split; [|discriminate].
  now replay.
Qed.

Lemma reachable_good (s : State) :
  reachable s -> mode_matches_handle s /\ Sound s.
Proof.
  intros Hr. induction Hr as [e s Hs | i s _ [Hinv H]].
  - split; [now apply (setup_establishes e) | now apply (Sound_setup e)].
  - split; [now apply loop_preserves | now apply Sound_loop].
Qed.

(** X1: in every state the sketch reaches, the storage calls made so far
    respect the protocol of the output file: no file is opened for writing
    while one is open, lines are written, flushed and the file closed only
    through an open handle, SD.remove is never called with the name of the
    open file (up to case), and the handle the replay ends with is the one
    [logFile] holds. *)
Theorem reachable_storage_protocol (s : State) :
  reachable s -> handle_after (trace s) = Some (logFile s).
Proof. intros Hr. apply (reachable_good s Hr). Qed.

(** X2: in every state the sketch reaches, an open output handle is on the
    file that [nombreArchivo] names, and that name is an 8.3 CSV name. *)
Theorem reachable_handle_names_file (s : State) (f : string) :
  reachable s -> logFile s = Some f -> nombreArchivo s = f /\ matches_83 f.
Proof. intros Hr. apply (reachable_good s Hr). Qed.

(** X3: in every state the sketch reaches with a session open, the lines
    written to the file since it was opened are the header followed by one
    record per sample, whose first fields count 1, 2, 3, ... (modulo 2^32),
    and [tiempo_s] is the number of records written. *)
Theorem reachable_records_numbered (s : State) :
  reachable s -> is_open (logFile s) = true ->
  exists es okh,
    session_lines (trace s)
    = (rev (numbered 0 es) ++ [(CSV_HEADER, okh)])%list /\
    tiempo_s s = wrap32 (Z.of_nat (List.length es)).
Proof. intros Hr. apply (reachable_good s Hr). Qed.

(** X4: in every state the sketch reaches, the control mode is one of the
    five values 0 to 4 and the web console holds at most 6000 bytes. *)
Theorem reachable_mode_and_console_bounds (s : State) :
  reachable s ->
  0 <= estado s <= 4 /\ Z.of_nat (length (consola s)) <= MAX_LEN.
Proof.
  intros Hr. destruct (reachable_good s Hr) as (_ & H1 & H2 & _).
  now split.
Qed.

End Run.

Lemma booted_reachable : @reachable FixedPoint PowerUp.booted.
Proof. apply (reach_setup PowerUp.setup_env). reflexivity. Defined.

Lemma logged_reachable : @reachable FixedPoint PowerUp.logged.
Proof. repeat apply reach_loop. exact booted_reachable. Defined.

Lemma reachable_storage_protocol_witness :
  handle_after (trace PowerUp.logged) = Some (Some "2025_01_.CSV"%string).
Proof. exact (reachable_storage_protocol PowerUp.logged logged_reachable). Defined.

Lemma reachable_handle_names_file_witness :
  nombreArchivo PowerUp.logged = "2025_01_.CSV"%string /\
  matches_83 "2025_01_.CSV".
Proof.
  exact (reachable_handle_names_file PowerUp.logged "2025_01_.CSV"
           logged_reachable eq_refl).
Defined.

Lemma reachable_records_numbered_witness :
  exists es okh,
    session_lines (trace PowerUp.logged)
    = (rev (numbered 0 es) ++ [(CSV_HEADER, okh)])%list /\
    tiempo_s PowerUp.logged = wrap32 (Z.of_nat (List.length es)).
Proof.
  exact (reachable_records_numbered PowerUp.logged logged_reachable eq_refl).
Defined.

Lemma reachable_mode_and_console_bounds_witness :
  0 <= estado PowerUp.logged <= 4 /\
  Z.of_nat (length (consola PowerUp.logged)) <= MAX_LEN.
Proof.
  exact (reachable_mode_and_console_bounds PowerUp.logged logged_reachable).
Defined.

End RunFacts.

(** * The schedule over several checks *)
Module ScheduleFacts.
Import WString Filename Datalogger Protocol SessionFacts InvariantFacts
  SamplingFacts.
Open Scope Z_scope.

Section Checks.
Context {F : FloatOps}.

Lemma Active_logging_step (e : TickEnv) (s : State) :
  Active s -> Active (logging_step e s).
Proof.
  unfold Active. destruct (logging_step_frame e s) as (-> & -> & _). tauto.
Qed.

Lemma tick_due_Active (e : TickEnv) (s : State) :
  Active s ->
  tick_due e s = (PERIODO_LOG_MS <=? wrap32 (ahora e - lastLoop s)).
Proof.
  intros Hact. destruct (Active_tests s Hact) as [H4 Ho].
  unfold tick_due. now rewrite H4, Ho.
Qed.

(** X5: the test of the sampling step is right across the roll-over of
    millis(): when [d] milliseconds (less than 2^32) have really passed
    since the baseline, whatever the two 32-bit readings are, the step of
    an active session fires exactly when [d] is at least one period. *)
Theorem tick_due_across_rollover (e : TickEnv) (s : State) (d : Z) :
  Active s -> 0 <= d < 2 ^ 32 ->
  ahora e = wrap32 (lastLoop s + d) ->
  tick_due e s = (PERIODO_LOG_MS <=? d).
Proof.
  intros Hact Hd Hnow. rewrite (tick_due_Active e s Hact), Hnow.
  unfold wrap32. rewrite Zminus_mod_idemp_l.
  replace (lastLoop s + d - lastLoop s) with d by lia.
  now rewrite Z.mod_small.
Qed.

Lemma wrap32_add_l (a b : Z) : wrap32 (wrap32 a + b) = wrap32 (a + b).
Proof. unfold wrap32. now rewrite Zplus_mod_idemp_l. Qed.

Lemma wrap32_range (z : Z) : 0 <= wrap32 z < 2 ^ 32.
Proof. unfold wrap32. apply Z.mod_pos_bound. lia. Qed.

Lemma wrap32_small (z : Z) : 0 <= z < 2 ^ 32 -> wrap32 z = z.
Proof. intros Hz. now apply Z.mod_small. Qed.

(** X6: a check that comes [k] periods late is caught up by the checks that
    follow: [k] consecutive sampling steps at that same instant all fire,
    writing [k] records, counting [k] samples and moving the baseline by
    [k] periods; what is left of the lateness is the elapsed time less [k]
    periods. *)
Theorem late_check_catches_up (e : TickEnv) (k : nat) (s : State) :
  Active s ->
  0 <= tiempo_s s < 2 ^ 32 -> 0 <= lastLoop s < 2 ^ 32 ->
  Z.of_nat k * PERIODO_LOG_MS <= wrap32 (ahora e - lastLoop s) ->
  let s' := run_ticks (repeat e k) s in
  tiempo_s s' = wrap32 (tiempo_s s + Z.of_nat k) /\
  lastLoop s' = wrap32 (lastLoop s + Z.of_nat k * PERIODO_LOG_MS) /\
  List.length (file_lines (trace s'))
  = (List.length (file_lines (trace s)) + k)%nat /\
  wrap32 (ahora e - lastLoop s')
  = wrap32 (ahora e - lastLoop s) - Z.of_nat k * PERIODO_LOG_MS.
Proof.
  revert s. induction k as [|k IH]; intros s Hact Ht HL Hlate; cbn zeta.
  - cbn [repeat run_ticks Z.of_nat Z.mul].
    rewrite !Z.add_0_r, Z.sub_0_r, Nat.add_0_r, !wrap32_small by assumption.
    repeat split.
  - cbn [repeat run_ticks].
    assert (Hper : PERIODO_LOG_MS <= wrap32 (ahora e - lastLoop s))
      by (unfold PERIODO_LOG_MS in *; lia).
    assert (Hdue : tick_due e s = true)
      by (rewrite (tick_due_Active e s Hact); now apply Z.leb_le).
    destruct (logging_step_due e s Hdue) as (HL1 & HT1 & Htr1).
    cbn zeta in Htr1.
    pose proof (wrap32_lateness (ahora e) (lastLoop s) Hper) as Hlat.
    rewrite <- HL1 in Hlat.
    destruct (IH (logging_step e s)) as (IT & IL & In_ & Ilat).
    + now apply Active_logging_step.
    + rewrite HT1. apply wrap32_range.
    + rewrite HL1. apply wrap32_range.
    + rewrite Hlat. unfold PERIODO_LOG_MS in *. lia.
    + rewrite Ilat, IT, IL, In_, Hlat, HT1, HL1, Htr1.
      rewrite !wrap32_add_l. cbn [file_lines List.length].
      repeat split.
      * f_equal. lia.
      * f_equal. lia.
      * lia.
      * lia.
Qed.

Lemma wrap32_baseline (a b : Z) :
  wrap32 (wrap32 a - PERIODO_LOG_MS * wrap32 b)
  = wrap32 (a - PERIODO_LOG_MS * b).
Proof.
  unfold wrap32.
  rewrite Zminus_mod, Zmod_mod, Zmult_mod_idemp_r, <- Zminus_mod.
  reflexivity.
Qed.

(** X7: sampling steps never make the schedule drift: over any sequence of
    sampling steps, fired or not, early or late, the baseline less one
    period per counted sample stays the same (modulo 2^32), so the baseline
    is always the start of the session plus one period per sample. *)
Theorem schedule_never_drifts (es : list TickEnv) (s : State) :
  wrap32 (lastLoop (run_ticks es s)
          - PERIODO_LOG_MS * tiempo_s (run_ticks es s))
  = wrap32 (lastLoop s - PERIODO_LOG_MS * tiempo_s s).
Proof.
  revert s. induction es as [|e es IH]; intros s; cbn [run_ticks];
    [reflexivity|].
  rewrite IH. destruct (tick_due e s) eqn:Hdue.
  - destruct (logging_step_due e s Hdue) as (-> & -> & _).
    rewrite wrap32_baseline. f_equal. unfold PERIODO_LOG_MS. lia.
  - now rewrite logging_step_idle.
Qed.

End Checks.
Lemma tick_due_across_rollover_witness :
  tick_due (Scenario.tick_at 300 None true)
           (set_lastLoop (2 ^ 32 - 800) Scenario.recording) = true.
Proof.
  apply (tick_due_across_rollover (Scenario.tick_at 300 None true)
           (set_lastLoop (2 ^ 32 - 800) Scenario.recording) 1100).
  - split; reflexivity.
  - lia.
  - reflexivity.
Defined.

Lemma late_check_catches_up_witness :
  tiempo_s (run_ticks (repeat (Scenario.tick_at 8200 None true) 3)
              Scenario.recording) = 3 /\
  lastLoop (run_ticks (repeat (Scenario.tick_at 8200 None true) 3)
              Scenario.recording) = 8000.
Proof.
  destruct (late_check_catches_up (Scenario.tick_at 8200 None true) 3
              Scenario.recording) as (H1 & H2 & _).
  - split; reflexivity.
  - vm_compute. split; [discriminate | reflexivity].
  - vm_compute. split; [discriminate | reflexivity].
  - vm_compute. discriminate.
  - split; [exact H1 | exact H2].
Defined.

End ScheduleFacts.

(** * The two front ends *)
Module FrontEndFacts.
Import WString Filename Datalogger Protocol WStringFacts SessionFacts
  InvariantFacts RunFacts.
Open Scope Z_scope.

Lemma has_char_app (c : ascii) (a b : string) :
  has_char c (a ++ b) = has_char c a || has_char c b.
Proof.
  induction a as [|d a IH]; cbn [append has_char]; [reflexivity|].
  rewrite IH. apply orb_assoc.
Qed.

Lemma index_char_from_absent (c : ascii) (y : string) :
  has_char c y = false ->
  forall pos from, index_char_from pos c y from = (-1)%Z.
Proof.
  induction y as [|d y IH]; cbn [has_char index_char_from]; [reflexivity|].
  intros H pos from. apply orb_false_iff in H as [Hd Hy].
  rewrite Hd, andb_false_r. now apply IH.
Qed.

Lemma index_char_from_first (c : ascii) (p rest : string) :
  has_char c p = false ->
  forall pos from,
    (from <= pos)%nat ->
    index_char_from pos c (p ++ String c rest) from
    = Z.of_nat (pos + length p).
Proof.
  induction p as [|d p IH]; cbn [has_char append index_char_from length];
    intros H pos from Hle.
  - apply Nat.leb_le in Hle. rewrite Hle, Ascii.eqb_refl. cbn [andb].
    f_equal. lia.
  - apply orb_false_iff in H as [Hd Hp].
    rewrite Hd, andb_false_r, (IH Hp (S pos) from) by lia.
    f_equal. lia.
Qed.

Lemma substring_prefix (p q : string) :
  substring 0 (length p) (p ++ q) = p.
Proof.
  induction p as [|c p IH]; cbn [length append substring].
  - now destruct q.
  - now rewrite IH.
Qed.

Lemma substring_whole (p : string) : substring 0 (length p) p = p.
Proof.
  induction p as [|c p IH]; cbn [length substring]; [reflexivity|].
  now rewrite IH.
Qed.

Lemma index_char_from_skip (c : ascii) (a b : string) :
  forall pos from,
    (pos + length a <= from)%nat ->
    index_char_from pos c (a ++ b) from
    = index_char_from (pos + length a) c b from.
Proof.
  induction a as [|d a IH]; cbn [append length index_char_from];
    intros pos from Hle.
  - now rewrite Nat.add_0_r.
  - replace (from <=? pos)%nat with false
      by (symmetry; apply Nat.leb_gt; lia).
    cbn [andb]. rewrite IH by lia. f_equal. lia.
Qed.

Lemma substring_skip (a s : string) (m : nat) :
  substring (length a) m (a ++ s) = substring 0 m s.
Proof.
  induction a as [|c a IH]; cbn [length append substring]; [reflexivity|].
  exact IH.
Qed.

Lemma substring2_mid (a p q : string) :
  substring2 (a ++ p ++ q) (Z.of_nat (length a))
             (Z.of_nat (length a + length p)) = p.
Proof.
  unfold substring2.
  replace (Z.of_nat (length a + length p) <? Z.of_nat (length a)) with false
    by (symmetry; apply Z.ltb_ge; lia).
  rewrite !Nat2Z.id, !length_app.
  destruct (Nat.leb_spec (length a + (length p + length q)) (length a)).
  - destruct p; [reflexivity | cbn [length] in *; lia].
  - replace (Nat.min (length a + length p)
                     (length a + (length p + length q)) - length a)%nat
      with (length p) by lia.
    rewrite substring_skip. apply substring_prefix.
Qed.

Lemma substring1_tail (a p : string) :
  substring1 (a ++ p) (Z.of_nat (length a)) = p.
Proof.
  unfold substring1, substring2.
  replace (Z.of_nat (length (a ++ p)) <? Z.of_nat (length a)) with false
    by (symmetry; apply Z.ltb_ge; rewrite length_app; lia).
  rewrite !Nat2Z.id, length_app.
  destruct (Nat.leb_spec (length a + length p) (length a)).
  - destruct p; [reflexivity | cbn [length] in *; lia].
  - replace (Nat.min (length a + length p) (length a + length p)
             - length a)%nat with (length p) by lia.
    rewrite substring_skip. apply substring_whole.
Qed.

Lemma prefix_app (a b : string) : prefix a (a ++ b) = true.
Proof.
  induction a as [|c a IH]; cbn [append prefix].
  - now destruct b.
  - destruct (ascii_dec c c) as [_|Hne]; [exact IH | now elim Hne].
Qed.

(** The path of a well-formed GET request line is read back whole. *)
Lemma request_path_get (p rest : string) :
  has_char " " p = false ->
  request_path ("GET " ++ p ++ " " ++ rest) = p.
Proof.
  intros Hp. unfold request_path.
  assert (Hstart : startsWith ("GET " ++ p ++ " " ++ rest) "GET " = true)
    by apply prefix_app.
  assert (Ha : indexOfChar ("GET " ++ p ++ " " ++ rest) " " 0 = 3)
    by reflexivity.
  assert (Hb : indexOfChar ("GET " ++ p ++ " " ++ rest) " " (3 + 1)
               = Z.of_nat (4 + length p)).
  { unfold indexOfChar.
    change (3 + 1 <? 0) with false. change (Z.to_nat (3 + 1)) with 4%nat.
    rewrite (index_char_from_skip " " "GET " (p ++ " " ++ rest) 0 4)
      by (cbn; lia).
    change (" " ++ rest) with (String " " rest).
    apply (index_char_from_first " " p rest Hp); cbn; lia. }
  rewrite Hstart, Ha, Hb.
  replace ((0 <? 3) && (3 <? Z.of_nat (4 + length p))) with true
    by (symmetry; apply andb_true_iff; split;
        [reflexivity | apply Z.ltb_lt; lia]).
  apply (substring2_mid "GET " p (" " ++ rest)).
Qed.


Lemma append_assoc (a b c : string) : ((a ++ b) ++ c = a ++ b ++ c)%string.
Proof.
  induction a as [|d a IH]; cbn [append]; [reflexivity|]. now rewrite IH.
Qed.

Lemma prefix_other (k d : ascii) (key s : string) :
  Ascii.eqb k d = false -> prefix (String k key) (String d s) = false.
Proof.
  intros Hne. cbn [prefix]. destruct (ascii_dec k d) as [->|_]; [|reflexivity].
  now rewrite Ascii.eqb_refl in Hne.
Qed.

(** [indexOf] of a key whose first character does not occur before it. *)
Lemma index_after (k : ascii) (key a y : string) :
  has_char k a = false ->
  index 0 (String k key) (a ++ String k key ++ y) = Some (length a).
Proof.
  induction a as [|d a IH]; intros Ha.
  - assert (Hp : prefix (String k key) (String k key ++ y) = true)
      by apply prefix_app.
    cbn [append] in Hp. cbn [append length index]. now rewrite Hp.
  - cbn [has_char] in Ha. apply orb_false_iff in Ha as [Hd Ha].
    change (String d a ++ String k key ++ y)%string
      with (String d (a ++ String k key ++ y)).
    cbn [length index]. rewrite (prefix_other k d key _ Hd).
    now rewrite (IH Ha).
Qed.

Lemma index_absent (k : ascii) (key s : string) :
  has_char k s = false -> index 0 (String k key) s = None.
Proof.
  induction s as [|d s IH]; intros Hs; [reflexivity|].
  cbn [has_char] in Hs. apply orb_false_iff in Hs as [Hd Hs].
  cbn [index]. rewrite (prefix_other k d key s Hd). now rewrite (IH Hs).
Qed.

(** Reading [op] and [name] back from a query that gives both. *)
Lemma query_op_name (o y : string) :
  has_char "&" o = false -> has_char "n" o = false ->
  has_char "&" y = false ->
  query_value ("op=" ++ o ++ "&name=" ++ y) "op=" = o /\
  query_value ("op=" ++ o ++ "&name=" ++ y) "name=" = y.
Proof.
  intros Hamp Hn Hy. unfold query_value, indexOfStr. split.
  - assert (Hi : index 0 "op=" ("op=" ++ o ++ "&name=" ++ y) = Some 0%nat)
      by exact (index_after "o" "p=" "" (o ++ "&name=" ++ y) eq_refl).
    rewrite Hi. change (0 <=? Z.of_nat 0) with true. cbv iota.
    change (Z.of_nat 0 + Z.of_nat (length "op=")) with 3.
    assert (Ha : indexOfChar ("op=" ++ o ++ "&name=" ++ y) "&" 0
                 = Z.of_nat (3 + length o)).
    { unfold indexOfChar. change (0 <? 0) with false.
      change (Z.to_nat 0) with 0%nat.
      change ("op=" ++ o ++ "&name=" ++ y)
        with ("op=" ++ o ++ String "&" ("name=" ++ y)).
      rewrite <- append_assoc.
      rewrite (index_char_from_first "&" ("op=" ++ o) ("name=" ++ y));
        [| rewrite has_char_app; now rewrite Hamp | lia].
      rewrite length_app. reflexivity. }
    change (Z.of_nat 0) with 0. rewrite Ha.
    replace (0 <=? Z.of_nat (3 + length o)) with true
      by (symmetry; apply Z.leb_le; lia).
    apply (substring2_mid "op=" o ("&name=" ++ y)).
  - assert (Hsplit : ("op=" ++ o ++ "&name=" ++ y
                      = ("op=" ++ o ++ "&") ++ "name=" ++ y)%string)
      by (now rewrite !append_assoc).
    rewrite Hsplit.
    rewrite (index_after "n" "ame=" ("op=" ++ o ++ "&") y)
      by (rewrite !has_char_app, Hn; reflexivity).
    replace (0 <=? Z.of_nat (length ("op=" ++ o ++ "&"))) with true
      by (symmetry; apply Z.leb_le; lia).
    assert (Ha : indexOfChar (("op=" ++ o ++ "&") ++ "name=" ++ y) "&"
                   (Z.of_nat (length ("op=" ++ o ++ "&"))) = -1).
    { unfold indexOfChar.
      replace (Z.of_nat (length ("op=" ++ o ++ "&")) <? 0) with false
        by (symmetry; apply Z.ltb_ge; lia).
      rewrite Nat2Z.id, index_char_from_skip by lia.
      apply index_char_from_absent. exact Hy. }
    rewrite Ha. change (0 <=? -1) with false. cbv iota.
    rewrite <- Nat2Z.inj_add, <- length_app.
    rewrite <- (append_assoc ("op=" ++ o ++ "&") "name=" y).
    apply substring1_tail.
Qed.

(** Reading [op] from a query that gives nothing else: [name] is empty. *)
Lemma query_op_only (o : string) :
  has_char "&" o = false -> has_char "n" o = false ->
  query_value ("op=" ++ o) "op=" = o /\
  query_value ("op=" ++ o) "name=" = EmptyString.
Proof.
  intros Hamp Hn. unfold query_value, indexOfStr. split.
  - assert (Hi : index 0 "op=" ("op=" ++ o) = Some 0%nat).
    { pose proof (index_after "o" "p=" "" o eq_refl) as H.
      exact H. }
    rewrite Hi. change (0 <=? Z.of_nat 0) with true. cbv iota.
    assert (Ha : indexOfChar ("op=" ++ o) "&" (Z.of_nat 0) = -1).
    { unfold indexOfChar. change (Z.of_nat 0 <? 0) with false.
      apply index_char_from_absent. rewrite has_char_app.
      now rewrite Hamp. }
    rewrite Ha. change (0 <=? -1) with false. cbv iota.
    apply (substring1_tail "op=" o).
  - rewrite (index_absent "n" "ame=" ("op=" ++ o))
      by (rewrite has_char_app, Hn; reflexivity).
    reflexivity.
Qed.

(** The route taken for a path under /cmd. *)
Lemma handleWifiClient_cmd (query rest : string) (e : Env) (s : State) :
  has_char " " query = false ->
  handleWifiClient (Some ("GET /cmd?" ++ query ++ " " ++ rest)) e s
  = emit (Http CmdOK)
      (processWebCommand (query_value query "op=") (query_value query "name=")
         e s).
Proof.
  intros Hq. unfold handleWifiClient.
  change ("GET /cmd?" ++ query ++ " " ++ rest)
    with ("GET " ++ ("/cmd?" ++ query) ++ " " ++ rest).
  rewrite request_path_get by (rewrite has_char_app, Hq; reflexivity).
  change (("/cmd?" ++ query =? "/")%string) with false.
  change (("/cmd?" ++ query =? "/log")%string) with false.
  change (("/cmd?" ++ query =? "/last")%string) with false.
  change (startsWith ("/cmd?" ++ query) "/download?name=") with false.
  replace (startsWith ("/cmd?" ++ query) "/cmd?") with true
    by (symmetry; apply prefix_app).
  cbv iota.
  change (indexOfChar ("/cmd?" ++ query) "?" 0 + 1)
    with (Z.of_nat (length "/cmd?")).
  now rewrite substring1_tail.
Qed.

(** X8: the three command requests the web page issues reach the session
    manager with the operation and the name they carry: a GET of
    /cmd?op=O&name=N, for an operation O without ampersand, space or the
    letter n and a name N without ampersand or space, runs
    processWebCommand on O and N, and a GET of /cmd?op=O alone runs it on O
    with the empty name; in both cases the client is answered OK whatever
    the command does. *)
Theorem http_command_dispatch (o y rest : string) (e : Env) (s : State) :
  has_char "&" o = false -> has_char "n" o = false ->
  has_char " " o = false ->
  has_char "&" y = false -> has_char " " y = false ->
  handleWifiClient (Some ("GET /cmd?op=" ++ o ++ "&name=" ++ y ++ " " ++ rest))
                   e s
  = emit (Http CmdOK) (processWebCommand o y e s) /\
  handleWifiClient (Some ("GET /cmd?op=" ++ o ++ " " ++ rest)) e s
  = emit (Http CmdOK) (processWebCommand o "" e s).
Proof.
  intros Hoa Hon Hos Hya Hys. split.
  - assert (Hreq : ("GET /cmd?op=" ++ o ++ "&name=" ++ y ++ " " ++ rest
                    = "GET /cmd?" ++ ("op=" ++ o ++ "&name=" ++ y)
                      ++ " " ++ rest)%string)
      by (cbn [append]; now rewrite !append_assoc).
    rewrite Hreq, handleWifiClient_cmd
      by (rewrite !has_char_app, Hos, Hys; reflexivity).
    now destruct (query_op_name o y Hoa Hon Hya) as [-> ->].
  - change ("GET /cmd?op=" ++ o ++ " " ++ rest)
      with ("GET /cmd?" ++ ("op=" ++ o) ++ " " ++ rest).
    rewrite handleWifiClient_cmd
      by (rewrite !has_char_app, Hos; reflexivity).
    now destruct (query_op_only o Hoa Hon) as [-> ->].
Qed.

(** X9: a GET of /download?name=N, for a name N without space, asks the
    card for exactly the file N and answers with it, found or not; the
    session and the console are left as they are. *)
Theorem http_download_dispatch (y rest : string) (e : Env) (s : State) :
  has_char " " y = false ->
  handleWifiClient (Some ("GET /download?name=" ++ y ++ " " ++ rest)) e s
  = emit (Http (Download y (sd_ok e))) (emit (SdOpenRead y (sd_ok e)) s).
Proof.
  intros Hy. unfold handleWifiClient.
  change ("GET /download?name=" ++ y ++ " " ++ rest)
    with ("GET " ++ ("/download?name=" ++ y) ++ " " ++ rest).
  rewrite request_path_get by (rewrite has_char_app, Hy; reflexivity).
  change (("/download?name=" ++ y =? "/")%string) with false.
  change (("/download?name=" ++ y =? "/log")%string) with false.
  change (("/download?name=" ++ y =? "/last")%string) with false.
  replace (startsWith ("/download?name=" ++ y) "/download?name=") with true
    by (symmetry; apply prefix_app).
  cbv iota. now rewrite substring1_tail.
Qed.

Lemma http_command_dispatch_witness :
  handleWifiClient (Some "GET /cmd?op=delete&name=OLD.CSV HTTP/1.1")
                   Scenario.env_ok Scenario.recording
  = emit (Http CmdOK)
      (processWebCommand "delete" "OLD.CSV" Scenario.env_ok Scenario.recording).
Proof.
  exact (proj1 (http_command_dispatch "delete" "OLD.CSV" "HTTP/1.1"
                  Scenario.env_ok Scenario.recording
                  eq_refl eq_refl eq_refl eq_refl eq_refl)).
Defined.

Lemma http_download_dispatch_witness :
  handleWifiClient (Some "GET /download?name=LOG.CSV HTTP/1.1")
                   Scenario.env_ok boot
  = emit (Http (Download "LOG.CSV" true)) (emit (SdOpenRead "LOG.CSV" true) boot).
Proof.
  exact (http_download_dispatch "LOG.CSV" "HTTP/1.1" Scenario.env_ok boot
           eq_refl).
Defined.

(** The calls of a trace that are not quiet: those that write to the card
    or to the output file. *)
Lemma loud_emit_quiet (ev : Event) (s : State) :
  quiet ev = true ->
  filter (fun x => negb (quiet x)) (trace (emit ev s))
  = filter (fun x => negb (quiet x)) (trace s).
Proof. intros Hq. cbn [emit trace filter]. now rewrite Hq. Qed.

(** X10: only a GET under /cmd can change anything.  A request whose path
    does not start with /cmd? leaves every session and control variable
    and the console as they are and makes no call that writes to the card
    or to the output file; a request line that does not start with GET is
    answered with the main page, whatever it asks. *)
Theorem http_other_routes_read_only (req : string) (e : Env) (s : State) :
  let s' := handleWifiClient (Some req) e s in
  (startsWith (request_path req) "/cmd?" = false ->
   same_session s s' /\ consola s' = consola s /\
   filter (fun x => negb (quiet x)) (trace s')
   = filter (fun x => negb (quiet x)) (trace s)) /\
  (startsWith req "GET " = false -> s' = emit (Http MainPage) s).
Proof.
  cbn zeta. split.
  - intros Hcmd. unfold handleWifiClient. rewrite Hcmd.
    repeat match goal with
           | |- context [if ?c then _ else _] => destruct c
           end;
      (split; [repeat split|]); (split; [reflexivity|]);
      rewrite ?loud_emit_quiet by reflexivity; reflexivity.
  - intros Hget. unfold handleWifiClient, request_path. now rewrite Hget.
Qed.

Lemma http_other_routes_read_only_witness :
  handleWifiClient (Some "POST /cmd?op=stop HTTP/1.1") Scenario.env_ok
                   Scenario.recording
  = emit (Http MainPage) Scenario.recording.
Proof.
  exact (proj2 (http_other_routes_read_only "POST /cmd?op=stop HTTP/1.1"
                  Scenario.env_ok Scenario.recording) eq_refl).
Defined.

(** X11: on the console, the line back (white space around it aside)
    leaves every mode but the menu for the menu: the control mode becomes
    0 and the output handle is closed; nothing is removed and no further
    line is written; when a session was active, the stop is reported, the
    file is closed and the menu is printed, in that order. *)
Theorem console_back_returns_to_menu (line : string) (e : Env) (s : State) :
  mode_matches_handle s -> 1 <= estado s <= 4 ->
  trim line = "back"%string ->
  let s' := serial_step (Some line) e s in
  estado s' = 0 /\ logFile s' = None /\
  removals (trace s') = removals (trace s) /\
  file_lines (trace s') = file_lines (trace s) /\
  (estado s = 4 ->
   trace s'
   = (trace (mostrarMenu boot)
      ++ FileClose
         :: SerialPrintln "SERIAL: Deteniendo sesión de medida..."
         :: trace s)%list).
Proof.
  intros Hinv Hmode Hback. cbn zeta. unfold serial_step. rewrite Hback.
  change (("back" =? "back")%string) with true.
  destruct (Z.eqb_spec (estado s) 0) as [E0|_]; [lia|].
  destruct (Z.eqb_spec (estado s) 4) as [E4|N4].
  - assert (Hopen : is_open (logFile s) = true) by now apply Hinv.
    rewrite E4. cbn [Z.eqb Pos.eqb]. unfold pararSesionMedida.
    rewrite E4. cbn [Z.eqb Pos.eqb snd]. globals. rewrite Hopen. globals.
    repeat split.
  - assert (Hclosed : logFile s = None).
    { pose proof (not_session_closed s Hinv N4) as Hc.
      destruct (logFile s); [discriminate | reflexivity]. }
    destruct (Z.eqb_spec (estado s) 1) as [E1|N1];
      [globals; rewrite Hclosed; repeat split; lia|].
    destruct (Z.eqb_spec (estado s) 2) as [E2|N2];
      [globals; rewrite Hclosed; repeat split; lia|].
    destruct (Z.eqb_spec (estado s) 3) as [E3|N3];
      [globals; rewrite Hclosed; repeat split; lia|].
    lia.
Qed.

Lemma console_back_returns_to_menu_witness :
  estado (serial_step (Some " back ") Scenario.env_ok Scenario.recording) = 0.
Proof.
  assert (Hinv : mode_matches_handle Scenario.recording)
    by (split; reflexivity).
  refine (proj1 (console_back_returns_to_menu " back " Scenario.env_ok
                   Scenario.recording Hinv _ eq_refl)).
  vm_compute. split; discriminate.
Defined.


(** X12: starting from the console.  From the menu, the line a followed by
    a label (other than back) starts a session exactly when the trimmed
    label passes the sanitizer and the card opens the file: the mode is
    then 4, the handle is on the sanitized name, the counter is 0 and the
    baseline is the current time.  In every other case, a rejected label
    included, the console is back at the menu with the handle closed. *)
Theorem console_start_flow (label : string) (e1 e2 : Env) (s : State) :
  mode_matches_handle s -> estado s = 0 ->
  trim label <> "back"%string ->
  let s1 := serial_step (Some "a") e1 s in
  let s2 := serial_step (Some label) e2 s1 in
  estado s1 = 1 /\
  match sanitize (trim label), sd_ok e2 with
  | Some f, true =>
      estado s2 = 4 /\ logFile s2 = Some f /\ nombreArchivo s2 = f /\
      tiempo_s s2 = 0 /\ lastLoop s2 = millis e2
  | _, _ => estado s2 = 0 /\ logFile s2 = None
  end.
Proof.
  intros Hinv E0 Hback. cbn zeta.
  assert (Hclosed : logFile s = None).
  { pose proof (not_session_closed s Hinv ltac:(lia)) as Hc.
    destruct (logFile s); [discriminate | reflexivity]. }
  assert (Hs1 : serial_step (Some "a") e1 s
                = set_estado 1
                    (logMsg "Elige un nombre base para el archivo (se añadirá .CSV). Ej: 11-12-2025" s)).
  { unfold serial_step. rewrite E0. reflexivity. }
  rewrite Hs1. split; [reflexivity|].
  remember (set_estado 1
              (logMsg "Elige un nombre base para el archivo (se añadirá .CSV). Ej: 11-12-2025" s))
    as s1 eqn:Es1.
  assert (E1 : estado s1 = 1) by (now rewrite Es1).
  assert (Hc1 : logFile s1 = None) by (now rewrite Es1).
  unfold serial_step. rewrite E1.
  change (1 =? 0) with false. change (1 =? 1) with true. cbv iota.
  destruct (String.eqb_spec (trim label) "back"); [contradiction|].
  unfold sanitize, iniciarSesionMedida. rewrite E1, Hc1.
  destruct (nombreValidoBasico (trim label)); cbn [negb].
  - change (1 =? 4) with false. cbn [andb].
    destruct (sd_ok e2); globals; cbn [start_ok]; globals; repeat split.
  - cbn [start_ok]. globals. rewrite Hc1. split; reflexivity.
Qed.

Lemma console_start_flow_witness :
  estado (serial_step (Some "11-12-2025") Scenario.env_ok
            (serial_step (Some "a") Scenario.env_ok boot)) = 4.
Proof.
  assert (Hinv : mode_matches_handle boot) by (split; discriminate).
  assert (Hb : trim "11-12-2025" <> "back"%string) by discriminate.
  exact (proj1 (proj2 (console_start_flow "11-12-2025" Scenario.env_ok
                         Scenario.env_ok boot Hinv eq_refl Hb))).
Defined.

Lemma substring_drop (c m : string) :
  forall k, (k <= length c)%nat ->
    substring k (length c + length m - k) (c ++ m)
    = (substring k (length c - k) c ++ m)%string.
Proof.
  induction c as [|d c IH]; intros k Hk.
  - cbn [length] in *. assert (k = 0%nat) as -> by lia.
    cbn [append substring Nat.add Nat.sub]. rewrite Nat.sub_0_r.
    destruct m; [reflexivity|]. cbn [length substring].
    now rewrite substring_whole.
  - destruct k as [|k].
    + cbn [length Nat.add Nat.sub append substring].
      specialize (IH 0%nat ltac:(lia)). rewrite !Nat.sub_0_r in IH.
      now rewrite IH.
    + cbn [length Nat.add Nat.sub append substring] in *.
      apply IH. lia.
Qed.

(** X13: logMsg keeps the web console within 6000 bytes, whatever it held
    before, and a message that fits (shorter than 6000 bytes) is always
    there in full, with its line end, at the end of the console. *)
Theorem logMsg_keeps_latest (msg : string) (s : State) :
  Z.of_nat (length (consola (logMsg msg s))) <= MAX_LEN /\
  (Z.of_nat (length msg) < MAX_LEN ->
   ends_with (consola (logMsg msg s)) (msg ++ nl)) /\
  trace (logMsg msg s) = SerialPrintln msg :: trace s.
Proof.
  split; [|split; [|reflexivity]].
  - globals. apply keep_last_bound.
  - intros Hfit. globals. unfold keep_last.
    destruct (Z.ltb_spec MAX_LEN
                (Z.of_nat (length (consola s ++ msg ++ nl)))) as [Hgt|Hle].
    + rewrite length_app in *.
      assert (Hm : (length (msg ++ nl) <= Z.to_nat MAX_LEN)%nat).
      { rewrite length_app. cbn [nl length]. unfold MAX_LEN in *. lia. }
      unfold MAX_LEN in *.
      replace (Z.to_nat 6000)
        with (length (consola s) + length (msg ++ nl)
              - (length (consola s) + length (msg ++ nl) - Z.to_nat 6000))%nat
        at 2 by lia.
      rewrite substring_drop by lia.
      eexists. reflexivity.
    + exists (consola s). reflexivity.
Qed.

Lemma logMsg_keeps_latest_witness :
  ends_with (consola (logMsg "hola" boot)) ("hola" ++ nl).
Proof.
  apply (proj1 (proj2 (logMsg_keeps_latest "hola" boot))).
  vm_compute. reflexivity.
Defined.

End FrontEndFacts.

(** * Labels that differ in letter case *)
Module CaseFacts.
Import WString Filename WStringFacts FilenameFacts.

Lemma toupper_tolower (c : ascii) : toupper (tolower c) = toupper c.
Proof. destruct c as [[] [] [] [] [] [] [] []]; reflexivity. Qed.

Lemma isspace_tolower (c : ascii) : isspace (tolower c) = isspace c.
Proof. destruct c as [[] [] [] [] [] [] [] []]; reflexivity. Qed.

Lemma es_invalido_tolower (c : ascii) :
  es_invalido (tolower c) invalidos = es_invalido c invalidos.
Proof. destruct c as [[] [] [] [] [] [] [] []]; reflexivity. Qed.

Lemma dot_tolower (c : ascii) :
  Ascii.eqb (tolower c) "." = Ascii.eqb c ".".
Proof. destruct c as [[] [] [] [] [] [] [] []]; reflexivity. Qed.

Section SameLetters.
Variables x y : ascii.
Hypothesis Hxy : tolower x = tolower y.

Lemma same_toupper : toupper x = toupper y.
Proof. now rewrite <- (toupper_tolower x), Hxy, toupper_tolower. Qed.

Lemma same_isspace : isspace x = isspace y.
Proof. now rewrite <- (isspace_tolower x), Hxy, isspace_tolower. Qed.

Lemma same_invalido : es_invalido x invalidos = es_invalido y invalidos.
Proof. now rewrite <- (es_invalido_tolower x), Hxy, es_invalido_tolower. Qed.

Lemma same_dot : Ascii.eqb x "." = Ascii.eqb y ".".
Proof. now rewrite <- (dot_tolower x), Hxy, dot_tolower. Qed.

End SameLetters.

Lemma equalsIgnoreCase_cons (x y : ascii) (a b : string) :
  equalsIgnoreCase (String x a) (String y b) = true ->
  tolower x = tolower y /\ equalsIgnoreCase a b = true.
Proof.
  cbn [equalsIgnoreCase]. intros H. apply andb_true_iff in H as [Hc Hr].
  split; [now apply Ascii.eqb_eq | exact Hr].
Qed.

Lemma equalsIgnoreCase_ltrim (a : string) :
  forall b, equalsIgnoreCase a b = true ->
            equalsIgnoreCase (ltrim a) (ltrim b) = true.
Proof.
  induction a as [|x a IH]; intros [|y b] H; try discriminate;
    [reflexivity|].
  destruct (equalsIgnoreCase_cons x y a b H) as [Hxy Hab].
  cbn [ltrim]. rewrite (same_isspace x y Hxy).
  destruct (isspace y); [now apply IH | exact H].
Qed.

Lemma equalsIgnoreCase_rtrim (a : string) :
  forall b, equalsIgnoreCase a b = true ->
            equalsIgnoreCase (rtrim a) (rtrim b) = true.
Proof.
  induction a as [|x a IH]; intros [|y b] H; try discriminate;
    [reflexivity|].
  destruct (equalsIgnoreCase_cons x y a b H) as [Hxy Hab].
  specialize (IH b Hab). cbn [rtrim].
  rewrite (same_isspace x y Hxy).
  destruct (rtrim a) as [|x' a'], (rtrim b) as [|y' b']; try discriminate.
  - destruct (isspace y); [reflexivity|].
    cbn [equalsIgnoreCase]. now rewrite Hxy, Ascii.eqb_refl.
  - cbn [equalsIgnoreCase] in *. now rewrite Hxy, Ascii.eqb_refl, IH.
Qed.

Lemma equalsIgnoreCase_toUpperCase (a : string) :
  forall b, equalsIgnoreCase a b = true -> toUpperCase a = toUpperCase b.
Proof.
  induction a as [|x a IH]; intros [|y b] H; try discriminate;
    [reflexivity|].
  destruct (equalsIgnoreCase_cons x y a b H) as [Hxy Hab].
  cbn [toUpperCase map_chars]. rewrite (same_toupper x y Hxy).
  f_equal. now apply IH.
Qed.

Lemma equalsIgnoreCase_tiene_invalido (a : string) :
  forall b, equalsIgnoreCase a b = true ->
            tiene_invalido a = tiene_invalido b.
Proof.
  induction a as [|x a IH]; intros [|y b] H; try discriminate;
    [reflexivity|].
  destruct (equalsIgnoreCase_cons x y a b H) as [Hxy Hab].
  cbn [tiene_invalido]. rewrite (same_invalido x y Hxy), (IH b Hab).
  reflexivity.
Qed.

Lemma nombreValidoBasico_dot (nombre : string) :
  nombreValidoBasico nombre =
    match nombre with
    | EmptyString => false
    | String c _ => negb (Ascii.eqb c ".") && negb (tiene_invalido nombre)
    end.
Proof.
  unfold nombreValidoBasico. destruct nombre as [|c r]; [reflexivity|].
  cbn [length Nat.eqb].
  destruct (Ascii.eqb_spec c "."%char) as [->|Hc]; [reflexivity|].
  destruct c as [[] [] [] [] [] [] [] []]; try reflexivity. now elim Hc.
Qed.

(** X14: the sanitizer does not tell letter case apart: two labels that
    are equal up to case are both rejected or both given the same file
    name, so sessions started on them write to the same file. *)
Theorem sanitize_ignores_case (a b : string) :
  equalsIgnoreCase a b = true -> sanitize a = sanitize b.
Proof.
  intros H. unfold sanitize.
  assert (Hv : nombreValidoBasico a = nombreValidoBasico b).
  { rewrite !nombreValidoBasico_dot.
    rewrite (equalsIgnoreCase_tiene_invalido a b H).
    destruct a as [|x a], b as [|y b]; try discriminate; [reflexivity|].
    destruct (equalsIgnoreCase_cons x y a b H) as [Hxy _].
    now rewrite (same_dot x y Hxy). }
  assert (Hn : buildCsvFilenameFromBase a = buildCsvFilenameFromBase b).
  { unfold buildCsvFilenameFromBase, to83BaseName, trim.
    now rewrite (equalsIgnoreCase_toUpperCase _ _
                   (equalsIgnoreCase_rtrim _ _
                      (equalsIgnoreCase_ltrim _ _ H))). }
  now rewrite Hv, Hn.
Qed.

Lemma sanitize_ignores_case_witness :
  sanitize "Medida-1" = sanitize "MEDIDA-1".
Proof. exact (sanitize_ignores_case "Medida-1" "MEDIDA-1" eq_refl). Defined.

End CaseFacts.

(** * Streaming a file to the HTTP client *)
Module DownloadFacts.
Import Datalogger Download.

(** The read loop with enough rounds: the chunks, put end to end, are the
    bytes given; each holds between 1 and 256 bytes, and each one that is
    followed by another holds 256. *)
Lemma read_loop_chunks (fuel : nat) :
  forall rest : list ascii,
    (List.length rest <= fuel)%nat ->
    List.concat (read_loop fuel rest) = rest /\
    Forall (fun c => (1 <= List.length c <= BUF_SIZE)%nat) (read_loop fuel rest) /\
    (forall i, (S i < List.length (read_loop fuel rest))%nat ->
               List.length (nth i (read_loop fuel rest) []) = BUF_SIZE).
Proof.
  induction fuel as [|k IH]; intros rest Hlen.
  - destruct rest; [|cbn in Hlen; lia].
    cbn. repeat split; [constructor | intros i Hi; lia].
  - destruct rest as [|b rest'] eqn:Er.
    { cbn. repeat split; [constructor | intros i Hi; lia]. }
    rewrite <- Er in *.
    assert (Hne : (1 <= List.length rest)%nat) by (rewrite Er; cbn; lia).
    assert (Hstep : read_loop (S k) rest
                    = firstn BUF_SIZE rest :: read_loop k (skipn BUF_SIZE rest)).
    { rewrite Er. reflexivity. }
    rewrite Hstep.
    assert (Hskip : (List.length (skipn BUF_SIZE rest) <= k)%nat).
    { rewrite length_skipn. unfold BUF_SIZE. lia. }
    destruct (IH (skipn BUF_SIZE rest) Hskip) as (Hc & Hf & Hfull).
    split; [|split].
    + cbn [List.concat]. rewrite Hc. apply firstn_skipn.
    + constructor; [|exact Hf]. rewrite length_firstn. unfold BUF_SIZE. lia.
    + intros [|i] Hi.
      * cbn [nth]. rewrite length_firstn.
        cbn [List.length] in Hi.
        destruct (read_loop k (skipn BUF_SIZE rest)) as [|c cs] eqn:Erl;
          [cbn in Hi; lia|].
        assert (Hnz : skipn BUF_SIZE rest <> []).
        { intros Hz. rewrite Hz in Erl. destruct k; discriminate. }
        assert (List.length (skipn BUF_SIZE rest) <> 0%nat)
          by (destruct (skipn BUF_SIZE rest); [contradiction | cbn; lia]).
        rewrite length_skipn in *. unfold BUF_SIZE in *. lia.
      * cbn [nth]. apply Hfull. cbn [List.length] in Hi. lia.
Qed.

Lemma body_bytes_writes (chunks : list (list ascii)) :
  body_bytes (map ClientWrite chunks) = List.concat chunks.
Proof.
  induction chunks as [|c r IH]; cbn [map body_bytes List.concat];
    [reflexivity|]. now rewrite IH.
Qed.

(** X15: sendFileDownload sends a file whole: the bytes written to the
    client, put end to end, are the content of the file, whatever its
    length; they go out in chunks of 256 bytes, the last one possibly
    shorter, and no chunk is empty. *)
Theorem download_sends_whole_file (filename : string) (content : list ascii) :
  let chunks := read_loop (List.length content) content in
  body_bytes (sendFileDownload filename (Some content)) = content /\
  Forall (fun c => (1 <= List.length c <= 256)%nat) chunks /\
  (forall i, (S i < List.length chunks)%nat ->
             List.length (nth i chunks []) = 256%nat).
Proof.
  cbn zeta.
  destruct (read_loop_chunks (List.length content) content (Nat.le_refl _))
    as (Hc & Hf & Hfull).
  split; [|split; [exact Hf | exact Hfull]].
  unfold sendFileDownload. cbn [app body_bytes].
  now rewrite body_bytes_writes.
Qed.

Lemma download_sends_whole_file_witness :
  List.length (nth 1 (read_loop 600 (repeat "a"%char 600)) []) = 256%nat.
Proof.
  refine (proj2 (proj2 (download_sends_whole_file "LOG.CSV"
                          (repeat "a"%char 600))) 1%nat _).
  vm_compute. lia.
Defined.

End DownloadFacts.

(** * Listing the card on the console *)
Module ListingFacts.
Import Datalogger Listing.
Open Scope Z_scope.

Lemma append_empty (out : string) : (out ++ "")%string = out.
Proof.
  induction out as [|c out IHo]; cbn [append]; [reflexivity|].
  now rewrite IHo.
Qed.

Lemma append_shift (out a b : string) :
  ((out ++ a) ++ b)%string = (out ++ a ++ b)%string.
Proof.
  induction out as [|c out IHo]; cbn [append]; [reflexivity|].
  now rewrite IHo.
Qed.

(** With the counter below [numTabs] and [numTabs] within eight bits, the
    loop prints the tabs that are left and stops. *)
Lemma tab_loop_runs (k : nat) :
  forall fuel i numTabs out,
    0 <= i -> i + Z.of_nat k = numTabs -> numTabs <= 255 ->
    (k < fuel)%nat ->
    tab_loop fuel i numTabs out = Some (out ++ tabs k)%string.
Proof.
  induction k as [|k IH]; intros fuel i numTabs out Hi Hk Hn Hf;
    (destruct fuel as [|fuel]; [lia|]); cbn [tab_loop tabs].
  - replace (i <? numTabs) with false by (symmetry; apply Z.ltb_ge; lia).
    now rewrite append_empty.
  - replace (i <? numTabs) with true by (symmetry; apply Z.ltb_lt; lia).
    rewrite (IH fuel ((i + 1) mod 256) numTabs (out ++ tab)%string).
    + now rewrite append_shift.
    + apply Z.mod_pos_bound. lia.
    + rewrite Z.mod_small by lia. lia.
    + exact Hn.
    + lia.
Qed.

(** With [numTabs] beyond eight bits the counter never reaches it: the
    loop is still running after any number of tests. *)
Lemma tab_loop_spins (fuel : nat) :
  forall i numTabs out,
    255 < numTabs -> 0 <= i <= 255 -> tab_loop fuel i numTabs out = None.
Proof.
  induction fuel as [|fuel IH]; intros i numTabs out Hn Hi; cbn [tab_loop];
    [reflexivity|].
  replace (i <? numTabs) with true by (symmetry; apply Z.ltb_lt; lia).
  apply IH; [exact Hn|].
  pose proof (Z.mod_pos_bound (i + 1) 256 ltac:(lia)). lia.
Qed.

(** The tab loop from a counter at zero. *)
Lemma tab_loop_from_zero (fuel : nat) (numTabs : Z) :
  if numTabs <=? 255
  then (256 < fuel)%nat ->
       tab_loop fuel 0 numTabs EmptyString = Some (tabs (Z.to_nat numTabs))
  else tab_loop fuel 0 numTabs EmptyString = None.
Proof.
  destruct (Z.leb_spec numTabs 255) as [Hle|Hgt].
  - intros Hf. destruct (Z.le_gt_cases 0 numTabs) as [Hpos|Hneg].
    + apply (tab_loop_runs (Z.to_nat numTabs) fuel 0 numTabs EmptyString);
        lia.
    + destruct fuel as [|fuel]; [lia|]. cbn [tab_loop].
      replace (0 <? numTabs) with false by (symmetry; apply Z.ltb_ge; lia).
      destruct numTabs; try lia. reflexivity.
  - apply tab_loop_spins; lia.
Qed.

Lemma printEntry_dir (fuel : nat) (numTabs : Z) (n : string) (ch : list Entry) :
  printEntry fuel numTabs (EDir n ch) =
    match tab_loop fuel 0 numTabs EmptyString with
    | None => None
    | Some t =>
        match printDirectory fuel ch (numTabs + 1) with
        | None => None
        | Some sub => Some (mkLine t n "/" :: sub)
        end
    end.
Proof.
  cbn [printEntry].
  destruct (tab_loop fuel 0 numTabs EmptyString) as [t|]; [|reflexivity].
  assert (H : forall l,
             (fix entries (l : list Entry) : option (list Line) :=
                match l with
                | [] => Some []
                | c :: r =>
                    match printEntry fuel (numTabs + 1) c with
                    | None => None
                    | Some a =>
                        match entries r with
                        | None => None
                        | Some b => Some (a ++ b)%list
                        end
                    end
                end) l = printDirectory fuel l (numTabs + 1)).
  { induction l as [|c r IHl]; cbn [printDirectory]; [reflexivity|].
    now rewrite IHl. }
  now rewrite H.
Qed.

Lemma listed_app (a b : list Line) (na nb : list string) (la lb : list Z) :
  listed a na la -> listed b nb lb -> listed (a ++ b) (na ++ nb) (la ++ lb).
Proof.
  intros [H1 H2] [H3 H4]. unfold listed.
  rewrite !map_app, H1, H2, H3, H4. now split.
Qed.

Lemma printDirectory_step (fuel : nat) (numTabs : Z) (c : Entry)
      (r : list Entry) :
  (if levels_ok_entry numTabs c
   then (256 < fuel)%nat ->
        exists lines, printEntry fuel numTabs c = Some lines /\
                      listed lines (names_entry c) (levels_entry numTabs c)
   else printEntry fuel numTabs c = None) ->
  (if levels_ok numTabs r
   then (256 < fuel)%nat ->
        exists lines, printDirectory fuel r numTabs = Some lines /\
                      listed lines (names r) (levels numTabs r)
   else printDirectory fuel r numTabs = None) ->
  if levels_ok numTabs (c :: r)
  then (256 < fuel)%nat ->
       exists lines, printDirectory fuel (c :: r) numTabs = Some lines /\
                     listed lines (names (c :: r)) (levels numTabs (c :: r))
  else printDirectory fuel (c :: r) numTabs = None.
Proof.
  intros Hc Hr.
  cbn [levels_ok forallb printDirectory names levels fold_right].
  fold (levels_ok numTabs r). fold (names r). fold (levels numTabs r).
  destruct (levels_ok_entry numTabs c); cbn [andb].
  - destruct (levels_ok numTabs r).
    + intros Hf. destruct (Hc Hf) as (la & -> & Hla).
      destruct (Hr Hf) as (lb & -> & Hlb).
      eexists. split; [reflexivity | now apply listed_app].
    + destruct (printEntry fuel numTabs c); [now rewrite Hr | reflexivity].
  - now rewrite Hc.
Qed.

Lemma printEntry_spec (fuel : nat) :
  forall (e : Entry) (numTabs : Z),
    if levels_ok_entry numTabs e
    then (256 < fuel)%nat ->
         exists lines, printEntry fuel numTabs e = Some lines /\
                       listed lines (names_entry e) (levels_entry numTabs e)
    else printEntry fuel numTabs e = None.
Proof.
  fix IH 1. intros [n sz | n ch] numTabs.
  - cbn [levels_ok_entry printEntry names_entry levels_entry].
    pose proof (tab_loop_from_zero fuel numTabs) as Ht.
    destruct (numTabs <=? 255); cbn [andb].
    + intros Hf. rewrite (Ht Hf). eexists. split; [reflexivity|].
      split; reflexivity.
    + now rewrite Ht.
  - rewrite printEntry_dir.
    change (levels_ok_entry numTabs (EDir n ch))
      with ((numTabs <=? 255) && levels_ok (numTabs + 1) ch).
    change (names_entry (EDir n ch)) with (n :: names ch).
    change (levels_entry numTabs (EDir n ch))
      with (numTabs :: levels (numTabs + 1) ch).
    assert (Hch : if levels_ok (numTabs + 1) ch
                  then (256 < fuel)%nat ->
                       exists lines,
                         printDirectory fuel ch (numTabs + 1) = Some lines /\
                         listed lines (names ch) (levels (numTabs + 1) ch)
                  else printDirectory fuel ch (numTabs + 1) = None).
    { clear n. revert ch. fix IHl 1. intros [|c r].
      - cbn. intros _. eexists. split; [reflexivity | split; reflexivity].
      - apply printDirectory_step; [apply IH | apply IHl]. }
    pose proof (tab_loop_from_zero fuel numTabs) as Ht.
    destruct (numTabs <=? 255); cbn [andb]; [|now rewrite Ht].
    destruct (levels_ok (numTabs + 1) ch).
    + intros Hf. rewrite (Ht Hf). destruct (Hch Hf) as (lines & -> & Hn & Hl).
      eexists. split; [reflexivity|].
      split; cbn [map line_name line_indent]; [now rewrite Hn | now rewrite Hl].
    + rewrite Hch. now destruct (tab_loop fuel 0 numTabs "").
Qed.

(** X16: printDirectory lists every entry of the tree it is given, each
    once, a directory before its entries, with the name of each entry
    behind as many tabs as its nesting level, provided no entry has to be
    indented by more than 255 tabs; more than 256 tests of the tab loop are
    never needed.  If an entry has to be indented by more than 255 tabs,
    the eight-bit counter of the tab loop wraps before it reaches the
    indentation, and the call has not returned after any number of
    tests. *)
Theorem printDirectory_lists_every_entry (dir : list Entry) (numTabs : Z)
        (fuel : nat) :
  if levels_ok numTabs dir
  then (256 < fuel)%nat ->
       exists lines,
         printDirectory fuel dir numTabs = Some lines /\
         map line_name lines = names dir /\
         map line_indent lines
         = map (fun k => tabs (Z.to_nat k)) (levels numTabs dir)
  else printDirectory fuel dir numTabs = None.
Proof.
  induction dir as [|c r IHr].
  - cbn. intros _. eexists. split; [reflexivity | split; reflexivity].
  - apply (printDirectory_step fuel numTabs c r);
      [apply printEntry_spec | exact IHr].
Qed.

Lemma printDirectory_lists_every_entry_witness :
  exists lines,
    printDirectory 300 sample_card 0 = Some lines /\
    map line_name lines
    = [ "LOG.CSV"; "OLD"; "A.CSV"; "EMPTY"; "B.CSV" ]%string /\
    map line_indent lines
    = [ EmptyString; EmptyString; tab; tab; EmptyString ].
Proof.
  exact (printDirectory_lists_every_entry sample_card 0 300
           ltac:(vm_compute; lia)).
Defined.

End ListingFacts.
